(** * Realtime session manager of the JARVIS voice front-end

    A shallow embedding of the [App] component (in [src/StatusPanel.tsx],
    whose line numbers are cited below) and of the types it imports from
    [types.ts]: the connection lifecycle with its capped exponential
    backoff, the playback scheduler, the transcript assembler and the
    bounded logs.

    React state and refs become the fields of one [State] record; every
    callback of the component becomes a function [State -> State].  What the
    browser and the remote service decide (clock readings, random ids,
    whether the microphone is granted, ...) is read from an [Env] oracle or
    carried by the event.  Calls into the browser are recorded, in order, in
    the [effects] field, and the timeouts that are still pending are kept in
    [timers].

    The program is single-threaded: a callback runs until it returns or
    reaches an [await].  An asynchronous function is modelled as one step
    where what it awaits is its own [cleanup] cool-down or a browser call
    whose answer the event carries; [disconnect] and [handleReconnection]
    are also given in two halves, before and after the cool-down, so that
    events can be placed in between.  [isConnected] is React state, which a
    callback reads from its closure: [toggleSession] and the render read
    the current value, and the [initSession] a reconnection timer calls
    reads the value captured when the failed attempt was started, which is
    false.  Output times are rationals: the scheduler only takes maxima,
    adds a duration and compares. *)

From Stdlib Require Import QArith Qminmax Lqa ZArith.
From stdpp Require Import gmap strings list pretty.

Notation "s |> f" := (f s) (at level 45, left associativity, only parsing).

(** ** Data model ([types.ts]) *)

Inductive JarvisStatus :=
| IDLE | LISTENING | THINKING | SPEAKING | RECONNECTING | ERROR.

Inductive LogSource := SYSTEM | USER | JARVIS.

Record LogEntry := mkLogEntry {
  id : string;
  timestamp : string;
  message : string;
  source : LogSource
}.

Inductive TranscriptionType := input_t | output_t.

Record TranscriptionItem := mkTranscriptionItem {
  text : string;
  type : TranscriptionType
}.

(** [transcriptionBufferRef.current], an object [{ input, output }]. *)
Record TranscriptionBuffer := mkBuffer {
  input : string;
  output : string
}.

(** ** Inbound messages ([LiveServerMessage], as far as [onmessage] reads it) *)

Record InlineData := { mimeType : string; data : string }.

Record Part := { inlineData : option InlineData }.

Record ServerContent := {
  outputTranscription : option string;
  inputTranscription : option string;
  turnComplete : bool;
  modelTurn : option (list Part);
  interrupted : bool
}.

Record LiveServerMessage := { serverContent : option ServerContent }.

(** ** The browser side *)

(** Calls the component makes into the browser and the channel.  Handles
    (timer ids, audio nodes, streams, sessions) are positive numbers, as
    [window.setTimeout] returns them. *)
Inductive Effect :=
| SessionClose (session : positive)
| ProcessorDisconnect (node : positive)
| StreamStop (stream : positive)
| SourceStop (node : positive)
| SourceStart (node : positive) (when duration : Q)
| SetTimeout (timer : positive) (delay : Z)
| ClearTimeout (timer : positive)
| GetUserMedia
| LiveConnect
| CaptureStart (stream processor : positive).

(** What the environment answers.  [random_id] and [toLocaleTimeString] are
    indexed by the number of log entries made so far, [currentTime] (the
    output context's clock) by the number of times it has been read, and
    [decodedDuration] is the [duration] of the buffer that
    [decodeAudioData (decode data) ctx 24000 1] returns ([utils/audioUtils]
    is not part of the sources). *)
Record Env := {
  API_KEY : option string;
  random_id : nat -> string;
  toLocaleTimeString : nat -> string;
  currentTime : nat -> Q;
  decodedDuration : string -> Q
}.

(** ** Component state: [useState] values, refs, and the browser's view *)

#[projections(primitive)]
Record State := mkState {
  status : JarvisStatus;
  logs : list LogEntry;
  transcriptions : list TranscriptionItem;
  currentTranscription : option TranscriptionItem;
  currentHologram : option string;
  isConnected : bool;
  audioContextRef : bool;
  outputAudioContextRef : bool;
  sessionRef : option positive;
  mediaStreamRef : option positive;
  nextStartTimeRef : Q;
  sourcesRef : gset positive;
  transcriptionBufferRef : TranscriptionBuffer;
  scriptProcessorRef : option positive;
  reconnectAttemptsRef : Z;
  isIntentionalDisconnectRef : bool;
  isConnectingRef : bool;
  reconnectTimerRef : option positive;
  timers : list (positive * Z);
  effects : list Effect;
  nextHandle : positive;
  logSeq : nat;
  clockReads : nat
}.

Definition set_status (v : JarvisStatus) (s : State) : State :=
  mkState v (logs s) (transcriptions s) (currentTranscription s)
  (currentHologram s) (isConnected s) (audioContextRef s)
  (outputAudioContextRef s) (sessionRef s) (mediaStreamRef s)
  (nextStartTimeRef s) (sourcesRef s) (transcriptionBufferRef s)
  (scriptProcessorRef s) (reconnectAttemptsRef s) (isIntentionalDisconnectRef
  s) (isConnectingRef s) (reconnectTimerRef s) (timers s) (effects s)
  (nextHandle s) (logSeq s) (clockReads s).

Definition set_logs (v : list LogEntry) (s : State) : State :=
  mkState (status s) v (transcriptions s) (currentTranscription s)
  (currentHologram s) (isConnected s) (audioContextRef s)
  (outputAudioContextRef s) (sessionRef s) (mediaStreamRef s)
  (nextStartTimeRef s) (sourcesRef s) (transcriptionBufferRef s)
  (scriptProcessorRef s) (reconnectAttemptsRef s) (isIntentionalDisconnectRef
  s) (isConnectingRef s) (reconnectTimerRef s) (timers s) (effects s)
  (nextHandle s) (logSeq s) (clockReads s).

Definition set_transcriptions (v : list TranscriptionItem) (s : State) : State :=
  mkState (status s) (logs s) v (currentTranscription s) (currentHologram s)
  (isConnected s) (audioContextRef s) (outputAudioContextRef s) (sessionRef s)
  (mediaStreamRef s) (nextStartTimeRef s) (sourcesRef s)
  (transcriptionBufferRef s) (scriptProcessorRef s) (reconnectAttemptsRef s)
  (isIntentionalDisconnectRef s) (isConnectingRef s) (reconnectTimerRef s)
  (timers s) (effects s) (nextHandle s) (logSeq s) (clockReads s).

Definition set_currentTranscription (v : option TranscriptionItem) (s : State) : State :=
  mkState (status s) (logs s) (transcriptions s) v (currentHologram s)
  (isConnected s) (audioContextRef s) (outputAudioContextRef s) (sessionRef s)
  (mediaStreamRef s) (nextStartTimeRef s) (sourcesRef s)
  (transcriptionBufferRef s) (scriptProcessorRef s) (reconnectAttemptsRef s)
  (isIntentionalDisconnectRef s) (isConnectingRef s) (reconnectTimerRef s)
  (timers s) (effects s) (nextHandle s) (logSeq s) (clockReads s).

Definition set_currentHologram (v : option string) (s : State) : State :=
  mkState (status s) (logs s) (transcriptions s) (currentTranscription s) v
  (isConnected s) (audioContextRef s) (outputAudioContextRef s) (sessionRef s)
  (mediaStreamRef s) (nextStartTimeRef s) (sourcesRef s)
  (transcriptionBufferRef s) (scriptProcessorRef s) (reconnectAttemptsRef s)
  (isIntentionalDisconnectRef s) (isConnectingRef s) (reconnectTimerRef s)
  (timers s) (effects s) (nextHandle s) (logSeq s) (clockReads s).

Definition set_isConnected (v : bool) (s : State) : State :=
  mkState (status s) (logs s) (transcriptions s) (currentTranscription s)
  (currentHologram s) v (audioContextRef s) (outputAudioContextRef s)
  (sessionRef s) (mediaStreamRef s) (nextStartTimeRef s) (sourcesRef s)
  (transcriptionBufferRef s) (scriptProcessorRef s) (reconnectAttemptsRef s)
  (isIntentionalDisconnectRef s) (isConnectingRef s) (reconnectTimerRef s)
  (timers s) (effects s) (nextHandle s) (logSeq s) (clockReads s).

Definition set_audioContextRef (v : bool) (s : State) : State :=
  mkState (status s) (logs s) (transcriptions s) (currentTranscription s)
  (currentHologram s) (isConnected s) v (outputAudioContextRef s) (sessionRef
  s) (mediaStreamRef s) (nextStartTimeRef s) (sourcesRef s)
  (transcriptionBufferRef s) (scriptProcessorRef s) (reconnectAttemptsRef s)
  (isIntentionalDisconnectRef s) (isConnectingRef s) (reconnectTimerRef s)
  (timers s) (effects s) (nextHandle s) (logSeq s) (clockReads s).

Definition set_outputAudioContextRef (v : bool) (s : State) : State :=
  mkState (status s) (logs s) (transcriptions s) (currentTranscription s)
  (currentHologram s) (isConnected s) (audioContextRef s) v (sessionRef s)
  (mediaStreamRef s) (nextStartTimeRef s) (sourcesRef s)
  (transcriptionBufferRef s) (scriptProcessorRef s) (reconnectAttemptsRef s)
  (isIntentionalDisconnectRef s) (isConnectingRef s) (reconnectTimerRef s)
  (timers s) (effects s) (nextHandle s) (logSeq s) (clockReads s).

Definition set_sessionRef (v : option positive) (s : State) : State :=
  mkState (status s) (logs s) (transcriptions s) (currentTranscription s)
  (currentHologram s) (isConnected s) (audioContextRef s)
  (outputAudioContextRef s) v (mediaStreamRef s) (nextStartTimeRef s)
  (sourcesRef s) (transcriptionBufferRef s) (scriptProcessorRef s)
  (reconnectAttemptsRef s) (isIntentionalDisconnectRef s) (isConnectingRef s)
  (reconnectTimerRef s) (timers s) (effects s) (nextHandle s) (logSeq s)
  (clockReads s).

Definition set_mediaStreamRef (v : option positive) (s : State) : State :=
  mkState (status s) (logs s) (transcriptions s) (currentTranscription s)
  (currentHologram s) (isConnected s) (audioContextRef s)
  (outputAudioContextRef s) (sessionRef s) v (nextStartTimeRef s) (sourcesRef
  s) (transcriptionBufferRef s) (scriptProcessorRef s) (reconnectAttemptsRef
  s) (isIntentionalDisconnectRef s) (isConnectingRef s) (reconnectTimerRef s)
  (timers s) (effects s) (nextHandle s) (logSeq s) (clockReads s).

Definition set_nextStartTimeRef (v : Q) (s : State) : State :=
  mkState (status s) (logs s) (transcriptions s) (currentTranscription s)
  (currentHologram s) (isConnected s) (audioContextRef s)
  (outputAudioContextRef s) (sessionRef s) (mediaStreamRef s) v (sourcesRef s)
  (transcriptionBufferRef s) (scriptProcessorRef s) (reconnectAttemptsRef s)
  (isIntentionalDisconnectRef s) (isConnectingRef s) (reconnectTimerRef s)
  (timers s) (effects s) (nextHandle s) (logSeq s) (clockReads s).

Definition set_sourcesRef (v : gset positive) (s : State) : State :=
  mkState (status s) (logs s) (transcriptions s) (currentTranscription s)
  (currentHologram s) (isConnected s) (audioContextRef s)
  (outputAudioContextRef s) (sessionRef s) (mediaStreamRef s)
  (nextStartTimeRef s) v (transcriptionBufferRef s) (scriptProcessorRef s)
  (reconnectAttemptsRef s) (isIntentionalDisconnectRef s) (isConnectingRef s)
  (reconnectTimerRef s) (timers s) (effects s) (nextHandle s) (logSeq s)
  (clockReads s).

Definition set_transcriptionBufferRef (v : TranscriptionBuffer) (s : State) : State :=
  mkState (status s) (logs s) (transcriptions s) (currentTranscription s)
  (currentHologram s) (isConnected s) (audioContextRef s)
  (outputAudioContextRef s) (sessionRef s) (mediaStreamRef s)
  (nextStartTimeRef s) (sourcesRef s) v (scriptProcessorRef s)
  (reconnectAttemptsRef s) (isIntentionalDisconnectRef s) (isConnectingRef s)
  (reconnectTimerRef s) (timers s) (effects s) (nextHandle s) (logSeq s)
  (clockReads s).

Definition set_scriptProcessorRef (v : option positive) (s : State) : State :=
  mkState (status s) (logs s) (transcriptions s) (currentTranscription s)
  (currentHologram s) (isConnected s) (audioContextRef s)
  (outputAudioContextRef s) (sessionRef s) (mediaStreamRef s)
  (nextStartTimeRef s) (sourcesRef s) (transcriptionBufferRef s) v
  (reconnectAttemptsRef s) (isIntentionalDisconnectRef s) (isConnectingRef s)
  (reconnectTimerRef s) (timers s) (effects s) (nextHandle s) (logSeq s)
  (clockReads s).

Definition set_reconnectAttemptsRef (v : Z) (s : State) : State :=
  mkState (status s) (logs s) (transcriptions s) (currentTranscription s)
  (currentHologram s) (isConnected s) (audioContextRef s)
  (outputAudioContextRef s) (sessionRef s) (mediaStreamRef s)
  (nextStartTimeRef s) (sourcesRef s) (transcriptionBufferRef s)
  (scriptProcessorRef s) v (isIntentionalDisconnectRef s) (isConnectingRef s)
  (reconnectTimerRef s) (timers s) (effects s) (nextHandle s) (logSeq s)
  (clockReads s).

Definition set_isIntentionalDisconnectRef (v : bool) (s : State) : State :=
  mkState (status s) (logs s) (transcriptions s) (currentTranscription s)
  (currentHologram s) (isConnected s) (audioContextRef s)
  (outputAudioContextRef s) (sessionRef s) (mediaStreamRef s)
  (nextStartTimeRef s) (sourcesRef s) (transcriptionBufferRef s)
  (scriptProcessorRef s) (reconnectAttemptsRef s) v (isConnectingRef s)
  (reconnectTimerRef s) (timers s) (effects s) (nextHandle s) (logSeq s)
  (clockReads s).

Definition set_isConnectingRef (v : bool) (s : State) : State :=
  mkState (status s) (logs s) (transcriptions s) (currentTranscription s)
  (currentHologram s) (isConnected s) (audioContextRef s)
  (outputAudioContextRef s) (sessionRef s) (mediaStreamRef s)
  (nextStartTimeRef s) (sourcesRef s) (transcriptionBufferRef s)
  (scriptProcessorRef s) (reconnectAttemptsRef s) (isIntentionalDisconnectRef
  s) v (reconnectTimerRef s) (timers s) (effects s) (nextHandle s) (logSeq s)
  (clockReads s).

Definition set_reconnectTimerRef (v : option positive) (s : State) : State :=
  mkState (status s) (logs s) (transcriptions s) (currentTranscription s)
  (currentHologram s) (isConnected s) (audioContextRef s)
  (outputAudioContextRef s) (sessionRef s) (mediaStreamRef s)
  (nextStartTimeRef s) (sourcesRef s) (transcriptionBufferRef s)
  (scriptProcessorRef s) (reconnectAttemptsRef s) (isIntentionalDisconnectRef
  s) (isConnectingRef s) v (timers s) (effects s) (nextHandle s) (logSeq s)
  (clockReads s).

Definition set_timers (v : list (positive * Z)) (s : State) : State :=
  mkState (status s) (logs s) (transcriptions s) (currentTranscription s)
  (currentHologram s) (isConnected s) (audioContextRef s)
  (outputAudioContextRef s) (sessionRef s) (mediaStreamRef s)
  (nextStartTimeRef s) (sourcesRef s) (transcriptionBufferRef s)
  (scriptProcessorRef s) (reconnectAttemptsRef s) (isIntentionalDisconnectRef
  s) (isConnectingRef s) (reconnectTimerRef s) v (effects s) (nextHandle s)
  (logSeq s) (clockReads s).

Definition set_effects (v : list Effect) (s : State) : State :=
  mkState (status s) (logs s) (transcriptions s) (currentTranscription s)
  (currentHologram s) (isConnected s) (audioContextRef s)
  (outputAudioContextRef s) (sessionRef s) (mediaStreamRef s)
  (nextStartTimeRef s) (sourcesRef s) (transcriptionBufferRef s)
  (scriptProcessorRef s) (reconnectAttemptsRef s) (isIntentionalDisconnectRef
  s) (isConnectingRef s) (reconnectTimerRef s) (timers s) v (nextHandle s)
  (logSeq s) (clockReads s).

Definition set_nextHandle (v : positive) (s : State) : State :=
  mkState (status s) (logs s) (transcriptions s) (currentTranscription s)
  (currentHologram s) (isConnected s) (audioContextRef s)
  (outputAudioContextRef s) (sessionRef s) (mediaStreamRef s)
  (nextStartTimeRef s) (sourcesRef s) (transcriptionBufferRef s)
  (scriptProcessorRef s) (reconnectAttemptsRef s) (isIntentionalDisconnectRef
  s) (isConnectingRef s) (reconnectTimerRef s) (timers s) (effects s) v
  (logSeq s) (clockReads s).

Definition set_logSeq (v : nat) (s : State) : State :=
  mkState (status s) (logs s) (transcriptions s) (currentTranscription s)
  (currentHologram s) (isConnected s) (audioContextRef s)
  (outputAudioContextRef s) (sessionRef s) (mediaStreamRef s)
  (nextStartTimeRef s) (sourcesRef s) (transcriptionBufferRef s)
  (scriptProcessorRef s) (reconnectAttemptsRef s) (isIntentionalDisconnectRef
  s) (isConnectingRef s) (reconnectTimerRef s) (timers s) (effects s)
  (nextHandle s) v (clockReads s).

Definition set_clockReads (v : nat) (s : State) : State :=
  mkState (status s) (logs s) (transcriptions s) (currentTranscription s)
  (currentHologram s) (isConnected s) (audioContextRef s)
  (outputAudioContextRef s) (sessionRef s) (mediaStreamRef s)
  (nextStartTimeRef s) (sourcesRef s) (transcriptionBufferRef s)
  (scriptProcessorRef s) (reconnectAttemptsRef s) (isIntentionalDisconnectRef
  s) (isConnectingRef s) (reconnectTimerRef s) (timers s) (effects s)
  (nextHandle s) (logSeq s) v.

(** The state of a freshly mounted component. *)
Definition initialState : State :=
  {| status := IDLE; logs := []; transcriptions := [];
     currentTranscription := None; currentHologram := None;
     isConnected := false; audioContextRef := false;
     outputAudioContextRef := false; sessionRef := None;
     mediaStreamRef := None; nextStartTimeRef := 0%Q; sourcesRef := ∅;
     transcriptionBufferRef := mkBuffer "" "";
     scriptProcessorRef := None; reconnectAttemptsRef := 0%Z;
     isIntentionalDisconnectRef := false; isConnectingRef := false;
     reconnectTimerRef := None; timers := []; effects := [];
     nextHandle := 1%positive; logSeq := 0; clockReads := 0 |}.

(** ** Small helpers for the browser side *)

Definition emit (e : Effect) (s : State) : State :=
  set_effects (effects s ++ [e]) s.

Definition emits (es : list Effect) (s : State) : State :=
  set_effects (effects s ++ es) s.

(** A fresh handle: the value of the counter, which is then advanced. *)
Definition allocHandle (s : State) : State :=
  set_nextHandle (Pos.succ (nextHandle s)) s.

Definition pending (t : positive) (s : State) : bool :=
  bool_decide (t ∈ (timers s).*1).

Definition dropTimer (t : positive) (s : State) : State :=
  set_timers (filter (λ p, p.1 ≠ t) (timers s)) s.

(** [window.clearTimeout t] *)
Definition clearTimeout (t : positive) (s : State) : State :=
  s |> dropTimer t |> emit (ClearTimeout t).

(** JavaScript truthiness of a string: only the empty string is falsy. *)
Definition truthy (x : string) : bool := negb (String.eqb x "").

(** [l.slice(0, n)] and [l.slice(-n)] for [n >= 0]. *)
Definition slice_first {A} (n : nat) (l : list A) : list A := take n l.
Definition slice_last {A} (n : nat) (l : list A) : list A :=
  drop (length l - n) l.

(** ** Constants *)

Definition MAX_RECONNECT_ATTEMPTS : Z := 5.
Definition RECONNECT_DELAY_BASE : Z := 3000.

(** [Math.min(15000, RECONNECT_DELAY_BASE * Math.pow(2, attempts - 1))].
    The source only evaluates it for [attempts >= 1], where the power is an
    integer. *)
Definition backoffDelay (attempts : Z) : Z :=
  Z.min 15000 (RECONNECT_DELAY_BASE * 2 ^ (attempts - 1)).

Section Controller.

Variable env : Env.

(** ** [addLog] (lines 95-103) *)
Definition addLog (msg : string) (src : LogSource) (s : State) : State :=
  let newLog := {| id := random_id env (logSeq s);
                   timestamp := toLocaleTimeString env (logSeq s);
                   message := msg;
                   source := src |} in
  s |> set_logs (slice_first 30 (newLog :: logs s))
    |> set_logSeq (S (logSeq s)).

(** ** [cleanup] (lines 105-136)

    The part before the 150 ms cool-down; each release is guarded by a
    [try], so a failing release changes nothing else. *)
Definition cleanup (s : State) : State :=
  let s := match sessionRef s with
           | Some h => s |> emit (SessionClose h) |> set_sessionRef None
           | None => s
           end in
  let s := match scriptProcessorRef s with
           | Some p => s |> emit (ProcessorDisconnect p)
                         |> set_scriptProcessorRef None
           | None => s
           end in
  let s := match mediaStreamRef s with
           | Some m => s |> emit (StreamStop m) |> set_mediaStreamRef None
           | None => s
           end in
  s |> emits (SourceStop <$> elements (sourcesRef s))
    |> set_sourcesRef ∅
    |> set_isConnected false
    |> set_isConnectingRef false
    |> set_nextStartTimeRef 0%Q.

(** [if (reconnectTimerRef.current) window.clearTimeout(...)]; a handle is
    never 0, so the test is the test for [null]. *)
Definition clearReconnectTimer (s : State) : State :=
  match reconnectTimerRef s with
  | Some t => clearTimeout t s
  | None => s
  end.

(** ** [disconnect] (lines 138-147), split at [await cleanup()] *)
Definition disconnect_begin (s : State) : State :=
  s |> set_isIntentionalDisconnectRef true
    |> clearReconnectTimer
    |> cleanup.

Definition disconnect_resume (s : State) : State :=
  s |> set_status IDLE
    |> set_currentTranscription None
    |> set_currentHologram None
    |> set_reconnectAttemptsRef 0%Z
    |> addLog "System Standby. Communications array powered down." SYSTEM.

Definition disconnect (s : State) : State :=
  disconnect_resume (disconnect_begin s).

(** ** [handleReconnection] (lines 313-332) *)

(** [reconnectTimerRef.current = window.setTimeout(..., delay)] *)
Definition setReconnectTimer (delay : Z) (s : State) : State :=
  let t := nextHandle s in
  s |> allocHandle
    |> set_timers (timers s ++ [(t, delay)])
    |> emit (SetTimeout t delay)
    |> set_reconnectTimerRef (Some t).

(** The part after [await cleanup()]. *)
Definition handleReconnection_resume (s : State) : State :=
  if isIntentionalDisconnectRef s then s
  else if (reconnectAttemptsRef s <? MAX_RECONNECT_ATTEMPTS)%Z then
    let s := set_reconnectAttemptsRef (reconnectAttemptsRef s + 1)%Z s in
    let delay := backoffDelay (reconnectAttemptsRef s) in
    setReconnectTimer delay s
  else
    s |> set_status ERROR
      |> addLog "Neural Link Restoration Failed. System Lockout Active."
                SYSTEM
      |> set_reconnectAttemptsRef 0%Z.

Definition handleReconnection (s : State) : State :=
  handleReconnection_resume (cleanup s).

(** ** [initSession] (lines 149-311) *)

(** What happens after the credential check: the microphone is refused
    ([getUserMedia] rejects), or it is granted and [ai.live.connect] is
    called; the channel then answers through the callbacks and through the
    settlement of [sessionPromise]. *)
Inductive InitResult := MicDenied | ConnectPending.

(** The [catch] block (lines 304-310). *)
Definition initSession_catch (s : State) : State :=
  s |> set_isConnectingRef false
    |> set_status ERROR
    |> addLog "Primary Link Failed. Check Local Array." SYSTEM
    |> handleReconnection.

(** [!apiKey]: the key is missing or empty. *)
Definition keyMissing : bool :=
  match API_KEY env with
  | Some k => negb (truthy k)
  | None => true
  end.

(** [initSession] reads [isConnected] from its closure: [seen] is the
    value of the React state at the render that created the callback
    ([useCallback] with [isConnected] among its dependencies). *)
Definition initSessionSeeing (seen : bool) (r : InitResult) (s : State)
  : State :=
  if isConnectingRef s then s
  else if seen && negb (isIntentionalDisconnectRef s) then s
  else
    let s := set_isConnectingRef true s in
    let s :=
      if (reconnectAttemptsRef s =? 0)%Z then
        s |> set_status THINKING
          |> addLog "Establishing Neural Bridge..." SYSTEM
      else
        s |> set_status RECONNECTING
          |> addLog ("Re-routing Satellite Link: Attempt "
                     +:+ pretty (reconnectAttemptsRef s) +:+ "/"
                     +:+ pretty MAX_RECONNECT_ATTEMPTS +:+ "...") SYSTEM in
    if keyMissing then
      s |> set_isConnectingRef false |> initSession_catch
    else
      match r with
      | MicDenied => s |> emit GetUserMedia |> initSession_catch
      | ConnectPending =>
          let stream := nextHandle s in
          s |> emit GetUserMedia
            |> allocHandle
            |> set_mediaStreamRef (Some stream)
            |> set_audioContextRef true
            |> set_outputAudioContextRef true
            |> emit LiveConnect
      end.

(** The callback of the latest render, the one [toggleSession] calls: it
    sees the current value. *)
Definition initSession (r : InitResult) (s : State) : State :=
  initSessionSeeing (isConnected s) r s.

(** [sessionRef.current = await sessionPromise] (line 303): the promise
    resolves with a session, or rejects and the [catch] block runs. *)
Definition sessionResolved (session : positive) (s : State) : State :=
  set_sessionRef (Some session) s.

Definition sessionRejected (s : State) : State := initSession_catch s.

(** ** [onopen] (lines 187-217)

    [stream] is the microphone stream the enclosing [initSession] call
    acquired (a variable of its closure).  The capture pipeline is the
    script processor wired between the stream's source and the destination,
    whose [onaudioprocess] sends each frame on the channel. *)
Definition onopen (stream : positive) (s : State) : State :=
  let s := s |> set_isConnected true
             |> set_isConnectingRef false
             |> set_status IDLE
             |> set_isIntentionalDisconnectRef false
             |> set_reconnectAttemptsRef 0%Z
             |> addLog "Satellite Link Stabilized. Secure connection, Sir."
                       JARVIS in
  if audioContextRef s then
    let scriptProcessor := nextHandle s in
    s |> allocHandle
      |> set_scriptProcessorRef (Some scriptProcessor)
      |> emit (CaptureStart stream scriptProcessor)
  else s.

(** ** [onmessage] (lines 218-277) *)

(** One inline audio part (lines 250-264). *)
Definition scheduleAudio (base64Audio : string) (s : State) : State :=
  if outputAudioContextRef s then
    let now := currentTime env (clockReads s) in
    let s := s |> set_clockReads (S (clockReads s))
               |> set_nextStartTimeRef (Qmax (nextStartTimeRef s) now) in
    let duration := decodedDuration env base64Audio in
    let sourceNode := nextHandle s in
    s |> allocHandle
      |> emit (SourceStart sourceNode (nextStartTimeRef s) duration)
      |> set_nextStartTimeRef (nextStartTimeRef s + duration)%Q
      |> set_sourcesRef ({[sourceNode]} ∪ sourcesRef s)
  else s.

Definition handlePart (part : Part) (s : State) : State :=
  match inlineData part with
  | Some d =>
      if String.prefix "image/" (mimeType d) then
        s |> set_currentHologram
               (Some ("data:" +:+ mimeType d +:+ ";base64," +:+ data d))
          |> addLog "Initiating Holodesk Projection Sequence..." JARVIS
      else if String.eqb (mimeType d) "audio/pcm;rate=24000" then
        scheduleAudio (data d) s
      else s
  | None => s
  end.

(** Lines 219-229. *)
Definition handleTranscription (sc : option ServerContent) (s : State)
  : State :=
  let buf := transcriptionBufferRef s in
  match sc ≫= outputTranscription, sc ≫= inputTranscription with
  | Some t, _ =>
      let buf := mkBuffer (input buf) (output buf +:+ t) in
      s |> set_transcriptionBufferRef buf
        |> set_currentTranscription
             (Some (mkTranscriptionItem (output buf) output_t))
        |> set_status SPEAKING
  | None, Some t =>
      let buf := mkBuffer (input buf +:+ t) (output buf) in
      s |> set_transcriptionBufferRef buf
        |> set_currentTranscription
             (Some (mkTranscriptionItem (input buf) input_t))
        |> set_status LISTENING
  | None, None => s
  end.

(** Lines 231-241. *)
Definition handleTurnComplete (s : State) : State :=
  let i := input (transcriptionBufferRef s) in
  let o := output (transcriptionBufferRef s) in
  let s := if truthy i then addLog i USER s else s in
  let s := if truthy o then addLog o JARVIS s else s in
  let itemType := if truthy o then output_t else input_t in
  let item := mkTranscriptionItem (if truthy o then o else i) itemType in
  s |> set_transcriptions (slice_last 5 (transcriptions s ++ [item]))
    |> set_transcriptionBufferRef (mkBuffer "" "")
    |> set_status IDLE
    |> set_currentTranscription None.

(** Lines 269-276. *)
Definition handleInterrupted (s : State) : State :=
  s |> emits (SourceStop <$> elements (sourcesRef s))
    |> set_sourcesRef ∅
    |> set_nextStartTimeRef 0%Q
    |> set_status IDLE
    |> set_currentTranscription None
    |> addLog "Synthesis Interrupted. Buffer Purged." SYSTEM.

Definition onmessage (m : LiveServerMessage) (s : State) : State :=
  let sc := serverContent m in
  let s := handleTranscription sc s in
  let s := if default false (turnComplete <$> sc)
           then handleTurnComplete s else s in
  let parts := default [] (sc ≫= modelTurn) in
  let s := foldl (λ s part, handlePart part s) s parts in
  if default false (interrupted <$> sc) then handleInterrupted s else s.

(** ** [onerror] and [onclose] (lines 278-291) *)
Definition onerror (s : State) : State :=
  if isIntentionalDisconnectRef s then s
  else s |> addLog "Link Collision Detected. Resetting Protocols..." SYSTEM
         |> handleReconnection.

Definition onclose (s : State) : State :=
  if isIntentionalDisconnectRef s then s
  else s |> addLog "Satellite Bridge Severed. Searching for path..." SYSTEM
         |> handleReconnection.

(** ** The reconnection timer's callback (lines 322-326)

    A timeout that is no longer pending does not fire.  The callback calls
    the [initSession] that the arming [handleReconnection] captured, which
    is the one whose channel callbacks (or [catch] block) called that
    [handleReconnection]: the [initSession] of the attempt that failed.
    Every attempt is started by [toggleSession] while nothing is connected
    or by such a timer, so that callback was created at a render with
    [isConnected] false, whatever the state says by the time the timer
    fires. *)
Definition fireTimer (t : positive) (r : InitResult) (s : State) : State :=
  if pending t s then
    let s := dropTimer t s in
    if isIntentionalDisconnectRef s then s else initSessionSeeing false r s
  else s.

(** The source node's [ended] listener (line 259). *)
Definition sourceEnded (node : positive) (s : State) : State :=
  set_sourcesRef (sourcesRef s ∖ {[node]}) s.

(** ** [toggleSession] (lines 341-349) *)
Definition toggleSession (r : InitResult) (s : State) : State :=
  if isConnected s || isConnectingRef s then disconnect s
  else
    s |> set_reconnectAttemptsRef 0%Z
      |> set_isIntentionalDisconnectRef false
      |> initSession r.

(** ** Events and runs *)

Inductive Event :=
| ToggleSession (r : InitResult)
| FireTimer (t : positive) (r : InitResult)
| SessionResolved (session : positive)
| SessionRejected
| OnOpen (stream : positive)
| OnMessage (m : LiveServerMessage)
| OnError
| OnClose
| SourceEnded (node : positive).

Definition step (s : State) (e : Event) : State :=
  match e with
  | ToggleSession r => toggleSession r s
  | FireTimer t r => fireTimer t r s
  | SessionResolved h => sessionResolved h s
  | SessionRejected => sessionRejected s
  | OnOpen stream => onopen stream s
  | OnMessage m => onmessage m s
  | OnError => onerror s
  | OnClose => onclose s
  | SourceEnded node => sourceEnded node s
  end.

Definition run (es : list Event) (s : State) : State := foldl step s es.

End Controller.

Arguments cleanup s : simpl never.
Arguments backoffDelay attempts : simpl never.

(** ** A concrete environment and a few messages, for examples *)

(** The key is present, the output clock reads [0, 5, 10, ...] seconds and
    a chunk lasts half a second per character of payload. *)
Definition demoEnv : Env :=
  {| API_KEY := Some "key";
     random_id := λ n, pretty n;
     toLocaleTimeString := λ _, "12:00:00";
     currentTime := λ n, (5 * Z.of_nat n # 1)%Q;
     decodedDuration := λ d, (Z.of_nat (String.length d) # 2)%Q |}.

(** The same environment without the credential. *)
Definition noKeyEnv : Env :=
  {| API_KEY := None;
     random_id := random_id demoEnv;
     toLocaleTimeString := toLocaleTimeString demoEnv;
     currentTime := currentTime demoEnv;
     decodedDuration := decodedDuration demoEnv |}.

(** A message carrying one inline audio part. *)
Definition audioMessage (base64Audio : string) : LiveServerMessage :=
  {| serverContent := Some
       {| outputTranscription := None; inputTranscription := None;
          turnComplete := false;
          modelTurn := Some [ {| inlineData := Some
             {| mimeType := "audio/pcm;rate=24000"; data := base64Audio |} |} ];
          interrupted := false |} |}.

(** A partial input transcript, a partial output transcript, the
    turn-complete signal and the interruption signal. *)
Definition inputMessage (t : string) : LiveServerMessage :=
  {| serverContent := Some
       {| outputTranscription := None; inputTranscription := Some t;
          turnComplete := false; modelTurn := None; interrupted := false |} |}.

Definition outputMessage (t : string) : LiveServerMessage :=
  {| serverContent := Some
       {| outputTranscription := Some t; inputTranscription := None;
          turnComplete := false; modelTurn := None; interrupted := false |} |}.

Definition turnCompleteMessage : LiveServerMessage :=
  {| serverContent := Some
       {| outputTranscription := None; inputTranscription := None;
          turnComplete := true; modelTurn := None; interrupted := false |} |}.

Definition interruptedMessage : LiveServerMessage :=
  {| serverContent := Some
       {| outputTranscription := None; inputTranscription := None;
          turnComplete := false; modelTurn := None; interrupted := true |} |}.

(** The requests an attempt makes once it is past the credential check:
    the microphone and the channel. *)
Definition isAcquire (e : Effect) : bool :=
  match e with
  | GetUserMedia | LiveConnect => true
  | _ => false
  end.

Definition acquisitions (s : State) : list Effect :=
  List.filter isAcquire (effects s).

(** ** Failed connection attempts

    A connection attempt can fail because the key is missing or the
    microphone is refused (the [catch] block runs inside [initSession]),
    because [sessionPromise] rejects, or because the channel reports an
    error or a close while the handshake is in flight. *)
Inductive Failure :=
| MicRefused | HandshakeRejected | ChannelError | ChannelClosed.

Definition initResult (f : Failure) : InitResult :=
  match f with
  | MicRefused => MicDenied
  | _ => ConnectPending
  end.

Definition settle (env : Env) (f : Failure) (s : State) : State :=
  match f with
  | MicRefused => s
  | HandshakeRejected => sessionRejected env s
  | ChannelError => onerror env s
  | ChannelClosed => onclose env s
  end.

(** One attempt, started by [start], that fails in the way [f]: the
    channel only gets to report when the handshake was really started. *)
Definition failedAttempt (env : Env) (start : InitResult -> State -> State)
  (f : Failure) (s : State) : State :=
  let s := start (initResult f) s in
  if isConnectingRef s then settle env f s else s.

(** The user starts a session and the first attempt fails. *)
Definition failedStart (env : Env) (f : Failure) (s : State) : State :=
  failedAttempt env (toggleSession env) f s.

(** The reconnection timer fires and the attempt it starts fails. *)
Definition failedRetry (env : Env) (f : Failure) (s : State) : State :=
  match reconnectTimerRef s with
  | Some t => failedAttempt env (fireTimer env t) f s
  | None => s
  end.

Definition failedRetries (env : Env) (fs : list Failure) (s : State)
  : State :=
  foldl (λ s f, failedRetry env f s) s fs.

(** How the reconnection loop is entered: the first attempt of a session
    the user starts fails, or an established connection is lost (the channel
    reports an error or a close). *)
Inductive Entry := StartFails (f : Failure) | LinkError | LinkClosed.

Definition enterLoop (env : Env) (e : Entry) (s : State) : State :=
  match e with
  | StartFails f => failedStart env f s
  | LinkError => onerror env s
  | LinkClosed => onclose env s
  end.

(** The states in which that can happen: nothing connected, in flight or
    scheduled before a start; a connection made by a handshake (which has
    reset the counter and the intent flag) before a loss. *)
Definition canEnter (e : Entry) (s : State) : Prop :=
  match e with
  | StartFails _ =>
      isConnected s = false /\ isConnectingRef s = false /\ timers s = []
  | _ =>
      isConnected s = true /\ isIntentionalDisconnectRef s = false
      /\ reconnectAttemptsRef s = 0%Z /\ timers s = []
  end.

(** What can still arrive once the user has stopped the session: the
    channel's error and close callbacks, and reconnection timers. *)
Definition afterStop (e : Event) : bool :=
  match e with
  | OnError | OnClose | FireTimer _ _ => true
  | _ => false
  end.

(** ** Playback as the output context sees it *)

(** The chunks handed to the output context so far, in order: start time
    and duration of each [sourceNode.start] call. *)
Definition playback (s : State) : list (Q * Q) :=
  omap (λ e, match e with
             | SourceStart _ w d => Some (w, d)
             | _ => None
             end) (effects s).

(** When a scheduled chunk ends; 0 when there is none. *)
Definition endOf (c : option (Q * Q)) : Q :=
  match c with
  | Some (w, d) => (w + d)%Q
  | None => 0%Q
  end.

(** What the clock and the decoder answer for a run of audio chunks when
    the clock has been read [k] times before: one (now, duration) pair per
    chunk. *)
Fixpoint arrivals (env : Env) (k : nat) (chunks : list string)
  : list (Q * Q) :=
  match chunks with
  | [] => []
  | c :: rest =>
      (currentTime env k, decodedDuration env c) :: arrivals env (S k) rest
  end.

(** The schedule of section 4.3 of the design: start at
    [max(cursor, now)], then move the cursor to the end of the chunk. *)
Fixpoint gapless (cursor : Q) (arr : list (Q * Q)) : list (Q * Q) :=
  match arr with
  | [] => []
  | (now, d) :: rest =>
      let startAt := Qmax cursor now in
      (startAt, d) :: gapless (startAt + d) rest
  end.

Fixpoint cursorAfter (cursor : Q) (arr : list (Q * Q)) : Q :=
  match arr with
  | [] => cursor
  | (now, d) :: rest => cursorAfter (Qmax cursor now + d) rest
  end.

(** A session the user has started and whose handshake has succeeded. *)
Definition connectedState : State :=
  run demoEnv [ToggleSession ConnectPending; OnOpen 1; SessionResolved 3]
    initialState.

(** ** Transcript fragments *)

(** A partial transcript of either direction, as a message. *)
Definition fragmentMessage (f : TranscriptionType * string)
  : LiveServerMessage :=
  match f.1 with
  | input_t => inputMessage f.2
  | output_t => outputMessage f.2
  end.

Definition sameType (a b : TranscriptionType) : bool :=
  match a, b with
  | input_t, input_t | output_t, output_t => true
  | _, _ => false
  end.

(** The fragments of one direction, concatenated in arrival order. *)
Fixpoint heard (ty : TranscriptionType)
  (frags : list (TranscriptionType * string)) : string :=
  match frags with
  | [] => ""
  | (ty', t) :: rest =>
      if sameType ty ty' then t +:+ heard ty rest else heard ty rest
  end.

(** ** Predicates on states *)

(** The loop is waiting for its [n]-th reconnection attempt. *)
Definition InLoop (n : Z) (s : State) : Prop :=
  reconnectAttemptsRef s = n
  /\ isIntentionalDisconnectRef s = false
  /\ isConnectingRef s = false
  /\ isConnected s = false
  /\ exists t, reconnectTimerRef s = Some t
               /\ timers s = [(t, backoffDelay n)].

(** The loop has given up. *)
Definition LockedOut (s : State) : Prop :=
  status s = ERROR
  /\ timers s = []
  /\ reconnectAttemptsRef s = 0%Z
  /\ isConnectingRef s = false
  /\ isIntentionalDisconnectRef s = false.

(** What the earlier blocks of [onmessage] do to the active sources and to
    the output context: sources are only added, the context stays. *)
Definition Keeps (s x : State) : Prop :=
  sourcesRef s ⊆ sourcesRef x
  /\ outputAudioContextRef x = outputAudioContextRef s.

(** ** The unmount effect (lines 334-339) *)
Definition unmount (s : State) : State :=
  s |> clearReconnectTimer |> cleanup.

(** ** What the header and the panels derive from the state *)

Definition isStatus (a b : JarvisStatus) : bool :=
  match a, b with
  | IDLE, IDLE | LISTENING, LISTENING | THINKING, THINKING
  | SPEAKING, SPEAKING | RECONNECTING, RECONNECTING | ERROR, ERROR => true
  | _, _ => false
  end.

(** The [SAT_LINK] text (line 364). *)
Definition satLinkLabel (s : State) : string :=
  if isConnected s then "SECURE"
  else if isConnectingRef s then "HANDSHAKE"
  else if isStatus (status s) RECONNECTING then "RE-ROUTING"
  else "OFFLINE".

(** The toggle button: its [disabled] attribute and its text (lines
    367-373). *)
Definition buttonDisabled (s : State) : bool := isConnectingRef s.

Definition buttonLabel (s : State) : string :=
  if isConnectingRef s then "LINKING..."
  else if isConnected s then "STANDBY"
  else if isStatus (status s) RECONNECTING then "SEARCHING..."
  else "INIT_LINK".



(** [StatusPanel]: the colour of an entry (line 25) and the placeholder
    (lines 30-32). *)
Definition entryColour (src : LogSource) : string :=
  match src with
  | JARVIS => "text-sky-300"
  | USER => "text-slate-300"
  | SYSTEM => "text-yellow-500"
  end.

Definition showsNoActivity (entries : list LogEntry) : bool :=
  Nat.eqb (length entries) 0.

(** ** Relations between states of a run *)

(** [l'] comes from [l] by [addLog] calls only: each puts one entry in
    front and keeps the first 30. *)
Inductive LogExt (l : list LogEntry) : list LogEntry -> Prop :=
| LogExt_refl : LogExt l l
| LogExt_add l' e : LogExt l l' -> LogExt l (slice_first 30 (e :: l')).

(** The reconnection bookkeeping is within its bounds. *)
Definition Bounded (s : State) : Prop :=
  (0 <= reconnectAttemptsRef s <= MAX_RECONNECT_ATTEMPTS)%Z
  /\ Forall (λ p, 3000 <= p.2 <= 15000)%Z (timers s).

(** The fields that describe the connection and its recovery. *)
Definition lifecycle (s : State)
  : bool * bool * bool * Z * option positive * list (positive * Z)
    * option positive * option positive * option positive :=
  (isConnected s, isConnectingRef s, isIntentionalDisconnectRef s,
   reconnectAttemptsRef s, reconnectTimerRef s, timers s,
   sessionRef s, mediaStreamRef s, scriptProcessorRef s).

(** Nothing is held: no session, processor, stream or playing source,
    and the flags and the cursor are at rest. *)
Definition Released (s : State) : Prop :=
  sessionRef s = None /\ scriptProcessorRef s = None
  /\ mediaStreamRef s = None /\ sourcesRef s = ∅
  /\ isConnected s = false /\ isConnectingRef s = false
  /\ nextStartTimeRef s = 0%Q.

(** The releases [cleanup] asks for, in the order it asks. *)
Definition releases (s : State) : list Effect :=
  (SessionClose <$> option_list (sessionRef s))
  ++ (ProcessorDisconnect <$> option_list (scriptProcessorRef s))
  ++ (StreamStop <$> option_list (mediaStreamRef s))
  ++ (SourceStop <$> elements (sourcesRef s)).

(** ** Kinds of events and of message parts *)

Definition notMessage (e : Event) : bool :=
  match e with
  | OnMessage _ => false
  | _ => true
  end.

(** The part is taken for synthesized speech by [onmessage]: its type is
    not an image type and is exactly the 24 kHz PCM type. *)
Definition isPcm (part : Part) : bool :=
  match inlineData part with
  | Some d => negb (String.prefix "image/" (mimeType d))
              && String.eqb (mimeType d) "audio/pcm;rate=24000"
  | None => false
  end.

(** The data URL [onmessage] makes of an image part. *)
Definition imageUrl (part : Part) : option string :=
  match inlineData part with
  | Some d => if String.prefix "image/" (mimeType d)
              then Some ("data:" +:+ mimeType d +:+ ";base64," +:+ data d)
              else None
  | None => None
  end.

(** What the playback scheduler owns, the set of active sources apart. *)
Definition audioView (s : State) : list (Q * Q) * nat * positive * Q :=
  (playback s, clockReads s, nextHandle s, nextStartTimeRef s).

(** The same content without its partial input transcript. *)
Definition dropInput (sc : ServerContent) : ServerContent :=
  {| outputTranscription := outputTranscription sc;
     inputTranscription := None;
     turnComplete := turnComplete sc;
     modelTurn := modelTurn sc;
     interrupted := interrupted sc |}.

(** A failure of the channel that reaches the component twice: the error
    event, then the close event. *)
Definition reportedTwice (env : Env) (s : State) : State :=
  onclose env (onerror env s).


(** * Properties *)

(** ** What [cleanup] leaves alone *)

Section Frames.

Variable env : Env.

Ltac cleanup_cases s :=
  unfold cleanup;
  destruct (sessionRef s); simpl;
  destruct (scriptProcessorRef s); simpl;
  destruct (mediaStreamRef s); reflexivity.

Lemma cleanup_status s : status (cleanup s) = status s.
Proof. cleanup_cases s. Qed.

Lemma cleanup_logs s : logs (cleanup s) = logs s.
Proof. cleanup_cases s. Qed.

Lemma cleanup_logSeq s : logSeq (cleanup s) = logSeq s.
Proof. cleanup_cases s. Qed.

Lemma cleanup_transcriptions s :
  transcriptions (cleanup s) = transcriptions s.
Proof. cleanup_cases s. Qed.

Lemma cleanup_attempts s :
  reconnectAttemptsRef (cleanup s) = reconnectAttemptsRef s.
Proof. cleanup_cases s. Qed.

Lemma cleanup_intentional s :
  isIntentionalDisconnectRef (cleanup s) = isIntentionalDisconnectRef s.
Proof. cleanup_cases s. Qed.

Lemma cleanup_timerRef s : reconnectTimerRef (cleanup s) = reconnectTimerRef s.
Proof. cleanup_cases s. Qed.

Lemma cleanup_timers s : timers (cleanup s) = timers s.
Proof. cleanup_cases s. Qed.

Lemma cleanup_nextHandle s : nextHandle (cleanup s) = nextHandle s.
Proof. cleanup_cases s. Qed.

Lemma cleanup_isConnected s : isConnected (cleanup s) = false.
Proof. cleanup_cases s. Qed.

Lemma cleanup_isConnecting s : isConnectingRef (cleanup s) = false.
Proof. cleanup_cases s. Qed.

Lemma cleanup_sources s : sourcesRef (cleanup s) = ∅.
Proof. cleanup_cases s. Qed.

Lemma cleanup_cursor s : nextStartTimeRef (cleanup s) = 0%Q.
Proof. cleanup_cases s. Qed.

End Frames.

Create Rewrite HintDb cleanup_rw.

#[global] Hint Rewrite cleanup_status cleanup_logs cleanup_logSeq
  cleanup_transcriptions cleanup_attempts cleanup_intentional
  cleanup_timerRef cleanup_timers cleanup_nextHandle cleanup_isConnected
  cleanup_isConnecting cleanup_sources cleanup_cursor : cleanup_rw.

(** ** The reconnection handler *)

Section Reconnection.

Variable env : Env.

(** Below the ceiling the handler counts the attempt and arms one timer. *)
Lemma handleReconnection_retry s :
  isIntentionalDisconnectRef s = false ->
  (reconnectAttemptsRef s < MAX_RECONNECT_ATTEMPTS)%Z ->
  let s' := handleReconnection env s in
  let t := nextHandle s in
  let delay := backoffDelay (reconnectAttemptsRef s + 1) in
  reconnectAttemptsRef s' = (reconnectAttemptsRef s + 1)%Z
  /\ timers s' = timers s ++ [(t, delay)]
  /\ reconnectTimerRef s' = Some t
  /\ nextHandle s' = Pos.succ t
  /\ effects s' = effects (cleanup s) ++ [SetTimeout t delay]
  /\ status s' = status s
  /\ logs s' = logs s
  /\ isIntentionalDisconnectRef s' = false
  /\ isConnectingRef s' = false
  /\ isConnected s' = false.
Proof.
  intros Hint Hlt. cbv zeta.
  unfold handleReconnection, handleReconnection_resume.
  autorewrite with cleanup_rw. rewrite Hint.
  destruct (Z.ltb_spec (reconnectAttemptsRef s) MAX_RECONNECT_ATTEMPTS);
    [| lia].
  cbn. autorewrite with cleanup_rw. repeat split; reflexivity || done.
Qed.

(** At the ceiling it gives up: Error, counter back to 0, nothing armed. *)
Lemma handleReconnection_lockout s :
  isIntentionalDisconnectRef s = false ->
  (MAX_RECONNECT_ATTEMPTS <= reconnectAttemptsRef s)%Z ->
  let s' := handleReconnection env s in
  status s' = ERROR
  /\ reconnectAttemptsRef s' = 0%Z
  /\ timers s' = timers s
  /\ reconnectTimerRef s' = reconnectTimerRef s
  /\ nextHandle s' = nextHandle s
  /\ effects s' = effects (cleanup s)
  /\ isIntentionalDisconnectRef s' = false
  /\ isConnectingRef s' = false
  /\ isConnected s' = false.
Proof.
  intros Hint Hge. cbv zeta.
  unfold handleReconnection, handleReconnection_resume.
  autorewrite with cleanup_rw. rewrite Hint.
  destruct (Z.ltb_spec (reconnectAttemptsRef s) MAX_RECONNECT_ATTEMPTS);
    [lia |].
  cbn. autorewrite with cleanup_rw. repeat split; reflexivity || done.
Qed.

(** C1. For every attempt number [n] from 1 to 5: when the handler runs
    with [n - 1] attempts counted (and no intentional disconnect), it first
    raises the counter to [n] and then arms a timer whose delay is
    [min(15000, 3000 * 2^(n-1))] milliseconds, which is the [n]-th entry of
    [3000, 6000, 12000, 15000, 15000]. *)
Theorem C1_backoff_delays (n : Z) (s : State) :
  (1 <= n <= 5)%Z ->
  isIntentionalDisconnectRef s = false ->
  reconnectAttemptsRef s = (n - 1)%Z ->
  let s' := handleReconnection env s in
  let delay := Z.min 15000 (3000 * 2 ^ (n - 1)) in
  reconnectAttemptsRef s' = n
  /\ timers s' = timers s ++ [(nextHandle s, delay)]
  /\ last (effects s') = Some (SetTimeout (nextHandle s) delay)
  /\ [3000; 6000; 12000; 15000; 15000]%Z !! Z.to_nat (n - 1) = Some delay.
Proof.
  intros Hn Hint Hatt. cbv zeta.
  destruct (handleReconnection_retry s Hint) as (Ha & Ht & _ & _ & He & _).
  { rewrite Hatt. unfold MAX_RECONNECT_ATTEMPTS. lia. }
  rewrite Ha, Ht, He, Hatt, last_snoc.
  replace (n - 1 + 1)%Z with n by lia.
  repeat split; try reflexivity.
  assert (n = 1 \/ n = 2 \/ n = 3 \/ n = 4 \/ n = 5)%Z as Hcases by lia.
  destruct Hcases as [->|[->|[->|[->| ->]]]]; reflexivity.
Qed.

(** Whatever it does, the handler leaves no attempt marked in flight. *)
Lemma handleReconnection_isConnecting s :
  isConnectingRef (handleReconnection env s) = false.
Proof.
  unfold handleReconnection, handleReconnection_resume.
  autorewrite with cleanup_rw.
  destruct (isIntentionalDisconnectRef s); [now autorewrite with cleanup_rw |].
  destruct (_ <? _)%Z; cbn; now autorewrite with cleanup_rw.
Qed.

(** Every way of failing ends in exactly one run of the reconnection
    handler, on a state with the counter, the intent flag and the pending
    timers as they were when the attempt began. *)
Lemma failedAttempt_initSession f x :
  isConnectingRef x = false ->
  isConnected x = false ->
  isIntentionalDisconnectRef x = false ->
  exists y,
    failedAttempt env (initSession env) f x = handleReconnection env y
    /\ reconnectAttemptsRef y = reconnectAttemptsRef x
    /\ isIntentionalDisconnectRef y = false
    /\ timers y = timers x.
Proof.
  intros Hc Hk Hi. unfold failedAttempt, initSession, initSessionSeeing.
  rewrite Hc, Hk. cbn [andb].
  destruct keyMissing.
  - unfold initSession_catch. rewrite handleReconnection_isConnecting.
    eexists. split; [reflexivity |].
    destruct (_ =? _)%Z; cbn; auto.
  - destruct f; cbn [initResult].
    + unfold initSession_catch. rewrite handleReconnection_isConnecting.
      eexists. split; [reflexivity |].
      destruct (_ =? _)%Z; cbn; auto.
    + destruct (_ =? _)%Z; cbn; unfold sessionRejected, initSession_catch;
        (eexists; split; [reflexivity |]); cbn; auto.
    + destruct (_ =? _)%Z; cbn; unfold onerror; cbn; rewrite Hi;
        (eexists; split; [reflexivity |]); cbn; auto.
    + destruct (_ =? _)%Z; cbn; unfold onclose; cbn; rewrite Hi;
        (eexists; split; [reflexivity |]); cbn; auto.
Qed.

End Reconnection.

(** C1 at the third attempt of a fresh component: 12 seconds. *)
Lemma C1_backoff_delays_witness :
  let s := set_reconnectAttemptsRef 2 initialState in
  timers (handleReconnection demoEnv s) = [(1%positive, 12000%Z)].
Proof.
  intros s.
  exact (proj1 (proj2 (C1_backoff_delays demoEnv 3 s ltac:(lia) eq_refl eq_refl))).
Defined.

(** ** The reconnection loop and its ceiling *)

Section Ceiling.

Variable env : Env.

Lemma fireTimer_single t d r s :
  timers s = [(t, d)] ->
  isIntentionalDisconnectRef s = false ->
  isConnected s = false ->
  fireTimer env t r s = initSession env r (set_timers [] s).
Proof.
  intros Ht Hi Hk. unfold fireTimer, pending, dropTimer. rewrite Ht. cbn.
  rewrite bool_decide_true by apply list_elem_of_here.
  rewrite Hi. unfold filter. cbn. unfold initSession. cbn. rewrite Hk.
  destruct (decide (t ≠ t)); [congruence | reflexivity].
Qed.

Lemma fireTimer_none t r s : timers s = [] -> fireTimer env t r s = s.
Proof.
  intros Ht. unfold fireTimer, pending. rewrite Ht. reflexivity.
Qed.

Lemma failedAttempt_counts f x n :
  isConnectingRef x = false ->
  isConnected x = false ->
  isIntentionalDisconnectRef x = false ->
  timers x = [] ->
  reconnectAttemptsRef x = n ->
  (n < MAX_RECONNECT_ATTEMPTS)%Z ->
  InLoop (n + 1) (failedAttempt env (initSession env) f x).
Proof.
  intros Hc Hk Hi Ht Hn Hlt.
  destruct (failedAttempt_initSession env f x Hc Hk Hi)
    as (y & -> & Hy & Hyi & Hyt).
  destruct (handleReconnection_retry env y Hyi)
    as (Ha & Htm & Hr & _ & _ & _ & _ & Hi' & Hc' & Hk'); [lia |].
  unfold InLoop. rewrite Ha, Htm, Hr, Hyt, Ht, Hy, Hn.
  do 4 (split; [auto |]). exists (nextHandle y). split; reflexivity.
Qed.

Lemma failedAttempt_gives_up f x :
  isConnectingRef x = false ->
  isConnected x = false ->
  isIntentionalDisconnectRef x = false ->
  timers x = [] ->
  reconnectAttemptsRef x = MAX_RECONNECT_ATTEMPTS ->
  LockedOut (failedAttempt env (initSession env) f x).
Proof.
  intros Hc Hk Hi Ht Hn.
  destruct (failedAttempt_initSession env f x Hc Hk Hi)
    as (y & -> & Hy & Hyi & Hyt).
  destruct (handleReconnection_lockout env y Hyi)
    as (Hs & Ha & Htm & _ & _ & _ & Hi' & Hc' & _); [lia |].
  unfold LockedOut. rewrite Htm, Hyt, Ht. auto.
Qed.

(** The first failure of a session the user starts enters the loop. *)
Lemma failedStart_enters f s :
  isConnected s = false ->
  isConnectingRef s = false ->
  timers s = [] ->
  InLoop 1 (failedStart env f s).
Proof.
  intros Hk Hc Ht. unfold failedStart, failedAttempt, toggleSession.
  rewrite Hk, Hc. cbn [orb].
  apply (failedAttempt_counts f
           (set_isIntentionalDisconnectRef false
              (set_reconnectAttemptsRef 0 s)) 0%Z); auto.
  unfold MAX_RECONNECT_ATTEMPTS. lia.
Qed.

Lemma failedRetry_counts f s n :
  (n < MAX_RECONNECT_ATTEMPTS)%Z ->
  InLoop n s -> InLoop (n + 1) (failedRetry env f s).
Proof.
  intros Hlt (Hn & Hi & Hc & Hk & t & Hr & Ht).
  unfold failedRetry, failedAttempt. rewrite Hr.
  rewrite (fireTimer_single _ _ _ _ Ht Hi Hk).
  apply (failedAttempt_counts f (set_timers [] s) n); auto.
Qed.

Lemma failedRetry_gives_up f s :
  InLoop MAX_RECONNECT_ATTEMPTS s -> LockedOut (failedRetry env f s).
Proof.
  intros (Hn & Hi & Hc & Hk & t & Hr & Ht).
  unfold failedRetry, failedAttempt. rewrite Hr.
  rewrite (fireTimer_single _ _ _ _ Ht Hi Hk).
  apply (failedAttempt_gives_up f (set_timers [] s)); auto.
Qed.

Lemma failedRetries_count fs s n :
  (n + Z.of_nat (length fs) <= MAX_RECONNECT_ATTEMPTS)%Z ->
  InLoop n s ->
  InLoop (n + Z.of_nat (length fs)) (failedRetries env fs s).
Proof.
  revert s n. induction fs as [| f fs IH]; intros s n Hle Hs.
  - cbn [length failedRetries foldl]. change (Z.of_nat 0) with 0%Z.
    rewrite Z.add_0_r. exact Hs.
  - cbn [failedRetries foldl]. cbn [length] in *.
    replace (n + Z.of_nat (S (length fs)))%Z
      with ((n + 1) + Z.of_nat (length fs))%Z by lia.
    apply IH; [lia |]. apply failedRetry_counts; [lia | exact Hs].
Qed.

(** The loss of an established connection enters the loop as well. *)
Lemma linkLost_enters e s :
  e = LinkError \/ e = LinkClosed ->
  canEnter e s -> InLoop 1 (enterLoop env e s).
Proof.
  intros He Hs.
  assert (isIntentionalDisconnectRef s = false
          /\ reconnectAttemptsRef s = 0%Z /\ timers s = [])
    as (Hi & Ha & Ht) by (destruct He; subst e; cbn in Hs; tauto).
  assert (exists m, enterLoop env e s
                    = handleReconnection env (addLog env m SYSTEM s))
    as (m & ->).
  { destruct He; subst e; cbn; unfold onerror, onclose; rewrite Hi; eauto. }
  destruct (handleReconnection_retry env (addLog env m SYSTEM s) Hi)
    as (Ha' & Htm & Hr & _ & _ & _ & _ & Hi' & Hc' & Hk').
  { cbn. rewrite Ha. unfold MAX_RECONNECT_ATTEMPTS. lia. }
  unfold InLoop. rewrite Ha', Htm, Hr. cbn. rewrite Ha, Ht.
  do 4 (split; [auto |]). eexists. split; reflexivity.
Qed.

Lemma enterLoop_enters e s : canEnter e s -> InLoop 1 (enterLoop env e s).
Proof.
  destruct e as [f | |].
  - intros (Hk & Hc & Ht). now apply failedStart_enters.
  - apply linkLost_enters. auto.
  - apply linkLost_enters. auto.
Qed.

(** C2 (amended). Take a run in which every failure reaches the
    reconnection handler once (a refused microphone or a rejected
    handshake through the catch block, or one error event or one close
    event of the channel while the handshake is in flight), and which
    enters the reconnection loop with no timer pending: either the first
    attempt of a session the user starts fails, from a state with nothing
    connected, in flight or scheduled, or an established connection, with
    the counter at 0 and no stop under way, is lost through one error
    event or one close event.  Then, after the entry and [k < 5] failed
    reconnection attempts, exactly one backoff timer is pending, with the
    delay of attempt [k + 1]; when the fifth reconnection attempt has
    failed too the state is Error, no timer is pending (so no timer can
    fire and start an attempt) and the counter is back to 0.  A failure
    that the channel reports twice, through an error event and then a close
    event, is not covered: it is handled twice. *)
Theorem C2_reconnection_ceiling (s : State) (e : Entry)
  (fs : list Failure) :
  canEnter e s ->
  length fs = 5 ->
  let loop k := failedRetries env (take k fs) (enterLoop env e s) in
  (forall k, k < 5 ->
     exists t, timers (loop k) = [(t, backoffDelay (Z.of_nat k + 1))])
  /\ status (loop 5) = ERROR
  /\ timers (loop 5) = []
  /\ reconnectAttemptsRef (loop 5) = 0%Z
  /\ (forall t r, fireTimer env t r (loop 5) = loop 5).
Proof.
  intros Hcan Hlen loop.
  pose proof (enterLoop_enters e s Hcan) as Hin.
  assert (forall k, k < 5 -> InLoop (Z.of_nat k + 1) (loop k)) as Hloop.
  { intros k Hlt. unfold loop.
    replace (Z.of_nat k + 1)%Z
      with (1 + Z.of_nat (length (take k fs)))%Z
      by (rewrite length_take; lia).
    apply failedRetries_count; [| exact Hin].
    rewrite length_take. unfold MAX_RECONNECT_ATTEMPTS. lia. }
  split.
  { intros k Hlt. destruct (Hloop k Hlt) as (_ & _ & _ & _ & t & _ & Htm).
    eauto. }
  assert (LockedOut (loop 5)) as (Hs & Htm & Ha & _ & _).
  { destruct fs as [|a [|b [|c [|d [|? [|? ?]]]]]]; try discriminate.
    specialize (Hloop 4 ltac:(lia)). unfold loop in *.
    cbn [take failedRetries foldl] in Hloop |- *.
    apply failedRetry_gives_up. exact Hloop. }
  repeat split; auto. intros t r. now apply fireTimer_none.
Qed.

End Ceiling.

(** C2 on a fresh component whose microphone is refused six times. *)
Lemma C2_reconnection_ceiling_witness :
  status (failedRetries demoEnv (replicate 5 MicRefused)
            (failedStart demoEnv MicRefused initialState)) = ERROR.
Proof.
  exact (proj1 (proj2 (C2_reconnection_ceiling demoEnv initialState
    (StartFails MicRefused) (replicate 5 MicRefused)
    (conj eq_refl (conj eq_refl eq_refl)) eq_refl))).
Defined.

(** C2 as stated fails: after five consecutive failed connection attempts
    (the user's start and four reconnections) a fifth reconnection is still
    scheduled, and when its timer fires the microphone is requested and the
    channel is opened again. *)
Lemma C2_counterexample :
  let s := failedRetries demoEnv (replicate 4 MicRefused)
             (failedStart demoEnv MicRefused initialState) in
  timers s = [(5%positive, 15000%Z)]
  /\ ~ (status s = ERROR /\ timers s = [])
  /\ last (effects (fireTimer demoEnv 5 ConnectPending s)) = Some LiveConnect.
Proof.
  vm_compute. repeat split; [| discriminate..]. intros [_ H]. discriminate H.
Qed.

(** ** A missing credential *)

Section Credential.

Variable env : Env.

Lemma filter_isAcquire_stops (l : list positive) :
  List.filter isAcquire (SourceStop <$> l) = [].
Proof. induction l as [| n l IH]; [reflexivity | exact IH]. Qed.

Lemma acquisitions_cleanup s : acquisitions (cleanup s) = acquisitions s.
Proof.
  unfold acquisitions, cleanup.
  destruct (sessionRef s); simpl;
    destruct (scriptProcessorRef s); simpl;
    destruct (mediaStreamRef s); simpl;
    rewrite ?List.filter_app, ?filter_isAcquire_stops; simpl;
    rewrite ?app_nil_r; reflexivity.
Qed.

Lemma acquisitions_handleReconnection s :
  acquisitions (handleReconnection env s) = acquisitions s.
Proof.
  rewrite <- (acquisitions_cleanup s).
  unfold handleReconnection, handleReconnection_resume.
  destruct (isIntentionalDisconnectRef (cleanup s)); [reflexivity |].
  destruct (_ <? _)%Z; [| reflexivity].
  unfold acquisitions. cbn. rewrite List.filter_app. cbn.
  now rewrite app_nil_r.
Qed.

Lemma handleReconnection_status_error s :
  status s = ERROR -> status (handleReconnection env s) = ERROR.
Proof.
  intros Hs. unfold handleReconnection, handleReconnection_resume.
  destruct (isIntentionalDisconnectRef (cleanup s));
    [now rewrite cleanup_status |].
  destruct (_ <? _)%Z; cbn; [now rewrite cleanup_status | reflexivity].
Qed.

(** C3 (amended). When a connection attempt runs without the credential
    it aborts before the microphone is requested or the channel opened and
    the state becomes Error; the failure then goes to the reconnection
    handler like any other: unless the disconnect was intentional, and
    while fewer than five attempts are counted, the attempt is counted and
    a reconnection is scheduled after the backoff delay. *)
Theorem C3_missing_key (r : InitResult) (s : State) :
  keyMissing env = true ->
  isConnectingRef s = false ->
  isConnected s && negb (isIntentionalDisconnectRef s) = false ->
  let s' := initSession env r s in
  status s' = ERROR
  /\ acquisitions s' = acquisitions s
  /\ isConnectingRef s' = false
  /\ (isIntentionalDisconnectRef s = false ->
      (reconnectAttemptsRef s < MAX_RECONNECT_ATTEMPTS)%Z ->
      reconnectAttemptsRef s' = (reconnectAttemptsRef s + 1)%Z
      /\ timers s' = timers s
           ++ [(nextHandle s, backoffDelay (reconnectAttemptsRef s + 1))]).
Proof.
  intros Hkey Hc Hg. cbv zeta. unfold initSession, initSessionSeeing.
  rewrite Hc, Hg, Hkey. unfold initSession_catch.
  split; [| split; [| split]].
  - apply handleReconnection_status_error.
    destruct (_ =? _)%Z; reflexivity.
  - rewrite acquisitions_handleReconnection.
    destruct (_ =? _)%Z; reflexivity.
  - apply handleReconnection_isConnecting.
  - intros Hi Hlt.
    match goal with |- context [handleReconnection env ?y] =>
      destruct (handleReconnection_retry env y) as (Ha & Ht & _)
    end.
    + destruct (_ =? _)%Z; exact Hi.
    + destruct (_ =? _)%Z; exact Hlt.
    + rewrite Ha, Ht. destruct (_ =? _)%Z; split; reflexivity.
Qed.

End Credential.

(** C3 on a fresh component without a key: the user's start ends in Error
    with a reconnection due in 3 seconds. *)
Lemma C3_missing_key_witness :
  status (initSession noKeyEnv ConnectPending initialState) = ERROR.
Proof.
  exact (proj1 (C3_missing_key noKeyEnv ConnectPending initialState
                  eq_refl eq_refl eq_refl)).
Defined.

(** C3 as stated fails: without a key the attempt does enter the
    reconnection loop; a reconnection is scheduled, and it fires. *)
Lemma C3_counterexample :
  let s := toggleSession noKeyEnv ConnectPending initialState in
  status s = ERROR
  /\ timers s <> []
  /\ timers s = [(1%positive, 3000%Z)]
  /\ reconnectAttemptsRef s = 1%Z
  /\ status (fireTimer noKeyEnv 1 ConnectPending s) = ERROR
  /\ timers (fireTimer noKeyEnv 1 ConnectPending s) = [(2%positive, 6000%Z)].
Proof. vm_compute. repeat split. discriminate. Qed.

(** ** Intentional disconnect *)

Section Stop.

Variable env : Env.

Lemma afterStop_step s e :
  isIntentionalDisconnectRef s = true ->
  afterStop e = true ->
  exists tm, step env s e = set_timers tm s /\ tm `sublist_of` timers s.
Proof.
  intros Hi He. destruct e; try discriminate He; cbn [step].
  - unfold fireTimer. destruct (pending t s).
    + unfold dropTimer at 1. cbn. rewrite Hi.
      eexists. split; [reflexivity | apply sublist_filter].
    + exists (timers s). split; reflexivity.
  - unfold onerror. rewrite Hi. exists (timers s). split; reflexivity.
  - unfold onclose. rewrite Hi. exists (timers s). split; reflexivity.
Qed.

Lemma afterStop_run es s :
  isIntentionalDisconnectRef s = true ->
  forallb afterStop es = true ->
  exists tm, run env es s = set_timers tm s /\ tm `sublist_of` timers s.
Proof.
  revert s. induction es as [| e es IH]; intros s Hi Hes.
  - exists (timers s). split; reflexivity.
  - cbn in Hes. apply andb_prop in Hes as [He Hes].
    destruct (afterStop_step s e Hi He) as (tm & Hstep & Hsub).
    cbn [run foldl]. rewrite Hstep.
    destruct (IH (set_timers tm s) Hi Hes) as (tm' & Hrun & Hsub').
    exists tm'. split; [exact Hrun |]. cbn in Hsub'. now trans tm.
Qed.

Lemma disconnect_begin_intentional s :
  isIntentionalDisconnectRef (disconnect_begin s) = true.
Proof.
  unfold disconnect_begin, clearReconnectTimer. rewrite cleanup_intentional.
  cbn. destruct (reconnectTimerRef s); reflexivity.
Qed.

Lemma disconnect_begin_timers s :
  timers (disconnect_begin s) `sublist_of` timers s.
Proof.
  unfold disconnect_begin, clearReconnectTimer. rewrite cleanup_timers.
  cbn. destruct (reconnectTimerRef s); cbn; [apply sublist_filter | done].
Qed.

(** C4. From every state: once the user's stop has set the intent flag
    (and run its cleanup), whatever close and error events the channel
    fires, and whatever reconnection timers fire, while the stop waits for
    its cool-down or after it has finished, the state is Idle afterwards,
    the intent flag is still set, the attempt counter is 0, and nothing was
    requested or scheduled: no microphone, no channel, no new timer. *)
Theorem C4_stop_suppresses_reconnection (s : State) (es1 es2 : list Event) :
  forallb afterStop es1 = true ->
  forallb afterStop es2 = true ->
  let s1 := run env es1 (disconnect_begin s) in
  let s' := run env es2 (disconnect_resume env s1) in
  status s' = IDLE
  /\ status s' <> RECONNECTING
  /\ isIntentionalDisconnectRef s' = true
  /\ reconnectAttemptsRef s' = 0%Z
  /\ effects s' = effects (disconnect_begin s)
  /\ timers s' `sublist_of` timers s.
Proof.
  intros H1 H2. cbv zeta.
  pose proof (disconnect_begin_intentional s) as Hi.
  destruct (afterStop_run es1 _ Hi H1) as (tm1 & -> & Hsub1).
  destruct (afterStop_run es2 (disconnect_resume env
              (set_timers tm1 (disconnect_begin s))) Hi H2)
    as (tm2 & -> & Hsub2).
  cbn in Hsub2. cbn.
  repeat split; try done.
  trans tm1; [exact Hsub2 |].
  trans (timers (disconnect_begin s)); [exact Hsub1 |].
  apply disconnect_begin_timers.
Qed.

End Stop.

(** C4 on a session that is waiting to reconnect: stop, then a close, an
    error and the old timer. *)
Lemma C4_stop_suppresses_reconnection_witness :
  let s := failedStart demoEnv ChannelClosed initialState in
  status (run demoEnv [OnClose; OnError; FireTimer 2 ConnectPending]
            (disconnect_resume demoEnv
               (run demoEnv [OnClose] (disconnect_begin s)))) = IDLE.
Proof.
  exact (proj1 (C4_stop_suppresses_reconnection demoEnv
                  (failedStart demoEnv ChannelClosed initialState)
                  [OnClose] [OnClose; OnError; FireTimer 2 ConnectPending]
                  eq_refl eq_refl)).
Defined.

(** ** The playback scheduler *)

Section Playback.

Variable env : Env.

(** A message that only carries one audio part runs the scheduler once. *)
Lemma onmessage_audio d s :
  onmessage env (audioMessage d) s = scheduleAudio env d s.
Proof. reflexivity. Qed.

(** One chunk: it starts at [max(cursor, now)] and the cursor moves to its
    end. *)
Lemma scheduleAudio_spec d s :
  outputAudioContextRef s = true ->
  let s' := scheduleAudio env d s in
  let now := currentTime env (clockReads s) in
  let startAt := Qmax (nextStartTimeRef s) now in
  effects s'
  = effects s ++ [SourceStart (nextHandle s) startAt (decodedDuration env d)]
  /\ nextStartTimeRef s' = (startAt + decodedDuration env d)%Q
  /\ sourcesRef s' = {[nextHandle s]} ∪ sourcesRef s
  /\ clockReads s' = S (clockReads s)
  /\ nextHandle s' = Pos.succ (nextHandle s)
  /\ outputAudioContextRef s' = true.
Proof.
  intros Hctx. cbv zeta. unfold scheduleAudio. rewrite Hctx. cbn.
  repeat split; reflexivity || exact Hctx.
Qed.

(** A run of audio chunks produces the schedule of the design. *)
Lemma run_audio chunks s :
  outputAudioContextRef s = true ->
  let s' := run env (OnMessage ∘ audioMessage <$> chunks) s in
  let arr := arrivals env (clockReads s) chunks in
  playback s' = playback s ++ gapless (nextStartTimeRef s) arr
  /\ nextStartTimeRef s' = cursorAfter (nextStartTimeRef s) arr.
Proof.
  revert s. induction chunks as [| c chunks IH]; intros s Hctx; cbv zeta.
  - cbn. now rewrite app_nil_r.
  - cbn [fmap list_fmap run foldl compose step arrivals gapless cursorAfter].
    rewrite onmessage_audio.
    destruct (scheduleAudio_spec c s Hctx) as (He & Hn & _ & Hk & _ & Hc).
    destruct (IH _ Hc) as (IH1 & IH2).
    fold (run env (OnMessage ∘ audioMessage <$> chunks)
            (scheduleAudio env c s)).
    rewrite IH1, IH2, Hn, Hk. split; [| reflexivity].
    unfold playback at 1. rewrite He, omap_app. cbn.
    now rewrite <- app_assoc.
Qed.

Lemma length_arrivals k chunks :
  length (arrivals env k chunks) = length chunks.
Proof.
  revert k. induction chunks as [| c r IH]; intros k; cbn; [| rewrite IH];
    reflexivity.
Qed.

Lemma arrivals_lookup k chunks i c :
  chunks !! i = Some c ->
  arrivals env k chunks !! i
  = Some (currentTime env (k + i), decodedDuration env c).
Proof.
  revert k i. induction chunks as [| c0 r IH]; intros k i H; [done |].
  destruct i as [| i].
  - cbn in *. inversion H. now rewrite Nat.add_0_r.
  - change (arrivals env (S k) r !! i
            = Some (currentTime env (k + S i), decodedDuration env c)).
    rewrite (IH (S k) i H). do 3 f_equal. lia.
Qed.

End Playback.

(** Facts about the schedule itself. *)
Section Gapless.

Lemma length_gapless c arr : length (gapless c arr) = length arr.
Proof.
  revert c. induction arr as [| [now d] r IH]; intros c; cbn;
    [| rewrite IH]; reflexivity.
Qed.

Lemma gapless_first c arr now d :
  arr !! 0 = Some (now, d) -> gapless c arr !! 0 = Some (Qmax c now, d).
Proof. destruct arr as [| [n0 d0] r]; cbn; congruence. Qed.

Lemma gapless_next c arr i now d :
  arr !! S i = Some (now, d) ->
  gapless c arr !! S i
  = Some (Qmax (endOf (gapless c arr !! i)) now, d).
Proof.
  revert c i. induction arr as [| [n0 d0] r IH]; intros c i H; [done |].
  cbn in H. destruct i as [| i].
  - destruct r as [| [n1 d1] r]; cbn in *; congruence.
  - cbn. exact (IH _ i H).
Qed.

Lemma cursorAfter_last c arr :
  cursorAfter c arr
  = match length arr with
    | 0 => c
    | S j => endOf (gapless c arr !! j)
    end.
Proof.
  revert c. induction arr as [| [n0 d0] r IH]; intros c; [reflexivity |].
  cbn [cursorAfter length]. rewrite IH.
  destruct r as [| p r]; [reflexivity |]. reflexivity.
Qed.

Lemma cursorAfter_mono c arr :
  Forall (λ a, 0 <= a.2)%Q arr -> (c <= cursorAfter c arr)%Q.
Proof.
  revert c. induction arr as [| [n0 d0] r IH]; intros c H; cbn.
  - lra.
  - inversion H as [| ? ? Hd Hr]; subst. cbn in Hd.
    specialize (IH (Qmax c n0 + d0)%Q Hr).
    pose proof (Q.le_max_l c n0). lra.
Qed.

End Gapless.

Section Schedule.

Variable env : Env.

Lemma arrivals_nonneg k chunks :
  Forall (λ c, 0 <= decodedDuration env c)%Q chunks ->
  Forall (λ a, 0 <= a.2)%Q (arrivals env k chunks).
Proof.
  revert k. induction chunks as [| c r IH]; intros k H; cbn.
  - constructor.
  - inversion H; subst. constructor; [assumption | now apply IH].
Qed.

(** C5 (amended). For every run of inbound audio chunks with no
    interruption in between: the chunks are handed to the output in arrival
    order, each at start time [max(cursor, current output time)], and the
    cursor then moves by exactly the chunk's duration; so every chunk
    starts at or after the end of the one before (no overlap), the cursor
    never moves back (durations are not negative), and the gap between two
    consecutive chunks is 0 whenever the later one is scheduled while the
    output time has not yet passed the end of the earlier one, and the
    time by which it is late otherwise. *)
Theorem C5_playback_schedule (chunks : list string) (s : State) :
  outputAudioContextRef s = true ->
  let s' := run env (OnMessage ∘ audioMessage <$> chunks) s in
  let sched := drop (length (playback s)) (playback s') in
  let now i := currentTime env (clockReads s + i) in
  let cursor i := match i with
                  | 0 => nextStartTimeRef s
                  | S j => endOf (sched !! j)
                  end in
  playback s' = playback s ++ sched
  /\ length sched = length chunks
  /\ (forall i c, chunks !! i = Some c ->
        sched !! i = Some (Qmax (cursor i) (now i), decodedDuration env c))
  /\ (forall i a b, sched !! i = Some a -> sched !! S i = Some b ->
        (a.1 + a.2 <= b.1)%Q
        /\ ((now (S i) <= a.1 + a.2)%Q -> (b.1 - (a.1 + a.2) == 0)%Q)
        /\ ((a.1 + a.2 < now (S i))%Q ->
            (b.1 - (a.1 + a.2) == now (S i) - (a.1 + a.2))%Q))
  /\ nextStartTimeRef s' = cursor (length chunks)
  /\ (Forall (λ c, 0 <= decodedDuration env c)%Q chunks ->
      (nextStartTimeRef s <= nextStartTimeRef s')%Q).
Proof.
  intros Hctx. cbv zeta.
  destruct (run_audio env chunks s Hctx) as (Hp & Hn).
  rewrite Hp, Hn, drop_app_length.
  set (arr := arrivals env (clockReads s) chunks).
  set (G := gapless (nextStartTimeRef s) arr).
  assert (length G = length chunks) as HlenG
    by (unfold G, arr; now rewrite length_gapless, length_arrivals).
  assert (forall i c, chunks !! i = Some c ->
            G !! i = Some (Qmax match i with
                                | 0 => nextStartTimeRef s
                                | S j => endOf (G !! j)
                                end (currentTime env (clockReads s + i)),
                           decodedDuration env c)) as Hlookup.
  { intros i c Hc.
    pose proof (arrivals_lookup env (clockReads s) chunks i c Hc) as Ha.
    destruct i as [| i]; [now apply gapless_first | now apply gapless_next]. }
  split; [reflexivity |]. split; [exact HlenG |]. split; [exact Hlookup |].
  split; [| split].
  - intros i [w d] [w' d'] Ha Hb.
    assert (S i < length chunks) as Hlt
      by (rewrite <- HlenG; eapply lookup_lt_Some; exact Hb).
    destruct (lookup_lt_is_Some_2 chunks (S i) Hlt) as [c Hc].
    rewrite (Hlookup _ _ Hc), Ha in Hb. cbn in Hb. inversion Hb; subst.
    cbn. split; [| split].
    + apply Q.le_max_l.
    + intros Hnow. rewrite (Q.max_l _ _ Hnow). lra.
    + intros Hlate. rewrite (Q.max_r _ _ (Qlt_le_weak _ _ Hlate)). lra.
  - rewrite cursorAfter_last. unfold arr. rewrite length_arrivals.
    reflexivity.
  - intros Hd. apply cursorAfter_mono. now apply arrivals_nonneg.
Qed.

End Schedule.

(** C5 on two chunks of three and one characters played on an established
    session. *)
Lemma C5_playback_schedule_witness :
  length (drop (length (playback connectedState))
            (playback (run demoEnv (OnMessage ∘ audioMessage <$> ["abc"; "d"])
                         connectedState))) = 2.
Proof.
  exact (proj1 (proj2 (C5_playback_schedule demoEnv ["abc"; "d"]
                         connectedState eq_refl))).
Defined.

(** C5 as stated fails: the gap between consecutive chunks need not be 0.
    A one-second chunk scheduled at time 0 ends at time 1; the next one is
    scheduled when the output clock reads 5 and starts there, 4 seconds
    after the end of the first. *)
Lemma C5_counterexample :
  match playback (run demoEnv (OnMessage ∘ audioMessage <$> ["aa"; "aa"])
                    connectedState) with
  | [a; b] => (b.1 - (a.1 + a.2) == 4)%Q /\ ~ (b.1 - (a.1 + a.2) == 0)%Q
  | _ => False
  end.
Proof. vm_compute. split; [reflexivity | discriminate]. Qed.

(** ** Interruption *)

Section Interruption.

Variable env : Env.

Lemma Keeps_refl s : Keeps s s.
Proof. split; [done | reflexivity]. Qed.

Lemma Keeps_trans s x y : Keeps s x -> Keeps x y -> Keeps s y.
Proof. intros [H1 H2] [H3 H4]. split; [set_solver | congruence]. Qed.

Ltac keeps_frame := split; cbn; [set_solver | reflexivity].

Lemma handleTranscription_keeps sc s : Keeps s (handleTranscription sc s).
Proof.
  unfold handleTranscription.
  destruct (sc ≫= outputTranscription), (sc ≫= inputTranscription);
    keeps_frame.
Qed.

Lemma handleTurnComplete_keeps s : Keeps s (handleTurnComplete env s).
Proof.
  unfold handleTurnComplete.
  destruct (truthy (input _)), (truthy (output _)); keeps_frame.
Qed.

Lemma handlePart_keeps part s : Keeps s (handlePart env part s).
Proof.
  unfold handlePart. destruct (inlineData part) as [d |]; [| keeps_frame].
  destruct (String.prefix _ _); [keeps_frame |].
  destruct (String.eqb _ _); [| keeps_frame].
  unfold scheduleAudio. destruct (outputAudioContextRef s) eqn:E;
    [| keeps_frame].
  split; cbn; [set_solver | now rewrite E].
Qed.

Lemma handleParts_keeps parts s :
  Keeps s (foldl (λ s part, handlePart env part s) s parts).
Proof.
  revert s. induction parts as [| p parts IH]; intros s; [apply Keeps_refl |].
  cbn. eapply Keeps_trans; [apply handlePart_keeps | apply IH].
Qed.

(** A message that carries the interruption flag ends in the interruption
    block, whatever else it carries. *)
Lemma onmessage_interrupted m s :
  interrupted <$> serverContent m = Some true ->
  exists x, onmessage env m s = handleInterrupted env x /\ Keeps s x.
Proof.
  intros Hm. unfold onmessage. rewrite Hm. cbn [default].
  eexists. split; [reflexivity |].
  eapply Keeps_trans; [| apply handleParts_keeps].
  eapply Keeps_trans; [apply handleTranscription_keeps |].
  destruct (default false _); [apply handleTurnComplete_keeps |].
  apply Keeps_refl.
Qed.

(** C6. After a message with the interruption signal has been processed,
    every source that was active when the signal was handled (those active
    before the message and those the message itself started) has been
    stopped, no source is active and
    the cursor is 0; the next chunk therefore starts at [max(0, now)]: at
    or after the current output time, wherever the cursor stood before. *)
Theorem C6_interruption_reset (m : LiveServerMessage) (s : State)
  (d : string) :
  interrupted <$> serverContent m = Some true ->
  outputAudioContextRef s = true ->
  let s1 := onmessage env m s in
  let now := currentTime env (clockReads s1) in
  let s2 := onmessage env (audioMessage d) s1 in
  (exists x, s1 = handleInterrupted env x
             /\ sourcesRef s ⊆ sourcesRef x
             /\ forall n, n ∈ sourcesRef x -> SourceStop n ∈ effects s1)
  /\ (forall n, n ∈ sourcesRef s -> SourceStop n ∈ effects s1)
  /\ sourcesRef s1 = ∅
  /\ nextStartTimeRef s1 = 0%Q
  /\ last (effects s2)
     = Some (SourceStart (nextHandle s1) (Qmax 0 now) (decodedDuration env d))
  /\ (now <= Qmax 0 now)%Q
  /\ sourcesRef s2 = {[nextHandle s1]}.
Proof.
  intros Hm Hctx. cbv zeta.
  destruct (onmessage_interrupted m s Hm) as (x & -> & Hsub & Hx).
  rewrite Hctx in Hx.
  assert (forall n, n ∈ sourcesRef x ->
            SourceStop n ∈ effects (handleInterrupted env x)) as Hstop.
  { intros n Hn. cbn. apply elem_of_app. right.
    now apply list_elem_of_fmap_2, elem_of_elements. }
  split; [| split; [| split; [reflexivity | split; [reflexivity |]]]].
  - exists x. auto.
  - intros n Hn. apply Hstop. set_solver.
  - rewrite onmessage_audio.
    destruct (scheduleAudio_spec env d (handleInterrupted env x))
      as (He & _ & Hs & _); [exact Hx |].
    rewrite He, Hs, last_snoc. cbn.
    split; [reflexivity | split; [apply Q.le_max_r |]].
    apply union_empty_r_L.
Qed.

End Interruption.

(** C6 on a session that is playing two chunks when the interruption
    arrives. *)
Lemma C6_interruption_reset_witness :
  let s := run demoEnv (OnMessage ∘ audioMessage <$> ["abc"; "d"])
             connectedState in
  sourcesRef (onmessage demoEnv interruptedMessage s) = ∅.
Proof.
  intros s.
  exact (proj1 (proj2 (proj2 (C6_interruption_reset demoEnv
                                interruptedMessage s "e" eq_refl eq_refl)))).
Defined.

(** ** Transcript assembly *)

Section Transcript.

Variable env : Env.

Lemma append_assoc (a b c : string) : (a +:+ b) +:+ c = a +:+ (b +:+ c).
Proof.
  induction a as [| x a IH]; [reflexivity |].
  change (String x ((a +:+ b) +:+ c) = String x (a +:+ (b +:+ c))).
  now rewrite IH.
Qed.

Lemma append_empty_r (a : string) : a +:+ "" = a.
Proof.
  induction a as [| x a IH]; [reflexivity |].
  change (String x (a +:+ "") = String x a). now rewrite IH.
Qed.

Lemma append_empty_l (a : string) : "" +:+ a = a.
Proof. reflexivity. Qed.

(** Partial transcripts only grow the buffer of their direction; nothing
    is logged and no turn is recorded. *)
Lemma run_fragments frags s :
  let s1 := run env (OnMessage ∘ fragmentMessage <$> frags) s in
  transcriptionBufferRef s1
  = mkBuffer (input (transcriptionBufferRef s) +:+ heard input_t frags)
             (output (transcriptionBufferRef s) +:+ heard output_t frags)
  /\ logs s1 = logs s
  /\ logSeq s1 = logSeq s
  /\ transcriptions s1 = transcriptions s.
Proof.
  revert s. induction frags as [| [ty t] frags IH]; intros s; cbv zeta.
  - cbn. rewrite !append_empty_r. now destruct (transcriptionBufferRef s).
  - rewrite fmap_cons.
    change (run env (?e :: ?es) s) with (run env es (step env s e)).
    change (step env s ((OnMessage ∘ fragmentMessage) (ty, t)))
      with (onmessage env (fragmentMessage (ty, t)) s).
    destruct (IH (onmessage env (fragmentMessage (ty, t)) s))
      as (Hb & Hl & Hq & Ht).
    rewrite Hb, Hl, Hq, Ht.
    destruct ty; cbn; rewrite ?append_assoc; repeat split; reflexivity.
Qed.

(** The turn-complete block on its own. *)
Lemma turnComplete_spec s :
  let i := input (transcriptionBufferRef s) in
  let o := output (transcriptionBufferRef s) in
  let s' := onmessage env turnCompleteMessage s in
  let user := mkLogEntry (random_id env (logSeq s))
                (toLocaleTimeString env (logSeq s)) i USER in
  let k := if truthy i then S (logSeq s) else logSeq s in
  let assistant := mkLogEntry (random_id env k)
                     (toLocaleTimeString env k) o JARVIS in
  let emitted := (if truthy o then [assistant] else [])
                 ++ (if truthy i then [user] else []) in
  logs s' = match emitted with
            | [] => logs s
            | _ => slice_first 30 (emitted ++ logs s)
            end
  /\ logSeq s' = logSeq s + length emitted
  /\ transcriptions s'
     = slice_last 5 (transcriptions s
         ++ [mkTranscriptionItem (if truthy o then o else i)
               (if truthy o then output_t else input_t)])
  /\ transcriptionBufferRef s' = mkBuffer "" "".
Proof.
  cbv zeta. unfold onmessage. cbn. unfold handleTurnComplete.
  destruct (truthy (input (transcriptionBufferRef s))),
           (truthy (output (transcriptionBufferRef s))); cbn;
    repeat split; try reflexivity; try lia.
  unfold slice_first. cbn. now rewrite take_take.
Qed.

Lemma last_slice_last {A} (l : list A) (x : A) :
  last (slice_last 5 (l ++ [x])) = Some x.
Proof.
  unfold slice_last. rewrite length_app. cbn [length].
  destruct (decide (length l + 1 - 5 <= length l)) as [Hle | Hgt]; [| lia].
  rewrite drop_app_le by exact Hle. apply last_snoc.
Qed.

(** C7. From empty buffers, after any partial transcripts of the two
    directions, a turn-complete signal emits: one User entry carrying the
    concatenated input fragments if they are not empty, then one Assistant
    entry carrying the concatenated output fragments if they are not empty,
    and no other entry (none at all when both are empty); the turn is
    recorded with type [output] when there was assistant text and [input]
    otherwise; and both buffers are empty afterwards.  Nothing is logged
    before the signal. *)
Theorem C7_turn_assembly (frags : list (TranscriptionType * string))
  (s : State) :
  transcriptionBufferRef s = mkBuffer "" "" ->
  let i := heard input_t frags in
  let o := heard output_t frags in
  let s1 := run env (OnMessage ∘ fragmentMessage <$> frags) s in
  let s' := onmessage env turnCompleteMessage s1 in
  let user := mkLogEntry (random_id env (logSeq s))
                (toLocaleTimeString env (logSeq s)) i USER in
  let k := if truthy i then S (logSeq s) else logSeq s in
  let assistant := mkLogEntry (random_id env k)
                     (toLocaleTimeString env k) o JARVIS in
  let emitted := (if truthy o then [assistant] else [])
                 ++ (if truthy i then [user] else []) in
  logs s1 = logs s
  /\ logs s' = match emitted with
               | [] => logs s
               | _ => slice_first 30 (emitted ++ logs s)
               end
  /\ last (transcriptions s')
     = Some (mkTranscriptionItem (if truthy o then o else i)
               (if truthy o then output_t else input_t))
  /\ transcriptionBufferRef s' = mkBuffer "" ""
  /\ (i = "" -> o = "" -> logs s' = logs s /\ logSeq s' = logSeq s).
Proof.
  intros Hbuf. cbv zeta.
  destruct (run_fragments frags s) as (Hb & Hl & Hq & Ht).
  rewrite Hbuf in Hb. cbn [input output] in Hb.
  rewrite !append_empty_l in Hb.
  pose proof (turnComplete_spec
                (run env (OnMessage ∘ fragmentMessage <$> frags) s)) as H.
  cbv zeta in H.
  set (s1 := run env (OnMessage ∘ fragmentMessage <$> frags) s) in *.
  set (s' := onmessage env turnCompleteMessage s1) in *. clearbody s'.
  rewrite Hb, Hl, Hq in H. cbn [input output] in H.
  destruct H as (Hlogs & Hseq & Htr & Hclear).
  split; [exact Hl |]. split; [exact Hlogs |].
  split; [rewrite Htr; apply last_slice_last |].
  split; [exact Hclear |].
  intros Hi Ho. rewrite Hi, Ho in Hlogs, Hseq. cbn in Hlogs, Hseq.
  split; [exact Hlogs | lia].
Qed.

End Transcript.

(** C7 on the fragments "Hello" and " there" with no assistant text, on a
    fresh component: exactly one entry, from the user. *)
Lemma C7_turn_assembly_witness :
  let s' := run demoEnv (OnMessage <$> [inputMessage "Hello";
                                        inputMessage " there";
                                        turnCompleteMessage]) initialState in
  logs s' = [mkLogEntry "0" "12:00:00" "Hello there" USER]
  /\ transcriptionBufferRef s' = mkBuffer "" "".
Proof.
  destruct (C7_turn_assembly demoEnv
              [(input_t, "Hello"); (input_t, " there")] initialState eq_refl)
    as (_ & Hlogs & _ & Hbuf & _).
  split; [exact Hlogs | exact Hbuf].
Defined.

(** ** The handshake *)

Section Handshake.

Variable env : Env.

(** C8 (amended). When the channel's open handshake succeeds (the audio
    contexts exist, as they do once [initSession] has reached the connect
    call), the controller is connected and its status is Idle, not
    Listening: Listening is entered when a partial input transcript
    arrives.  The attempt counter is reset to 0 and the capture pipeline is
    started: a new script processor is wired to the microphone stream. *)
Theorem C8_handshake (stream : positive) (s : State) :
  audioContextRef s = true ->
  let s' := onopen env stream s in
  status s' = IDLE
  /\ isConnected s' = true
  /\ isConnectingRef s' = false
  /\ reconnectAttemptsRef s' = 0%Z
  /\ scriptProcessorRef s' = Some (nextHandle s)
  /\ effects s' = effects s ++ [CaptureStart stream (nextHandle s)]
  /\ (forall t, status (onmessage env (inputMessage t) s') = LISTENING).
Proof.
  intros Hctx. cbv zeta. unfold onopen. cbn. rewrite Hctx. cbn.
  repeat split; reflexivity.
Qed.

End Handshake.

(** C8 on the handshake of a session the user has just started. *)
Lemma C8_handshake_witness :
  status (onopen demoEnv 1
            (toggleSession demoEnv ConnectPending initialState)) = IDLE.
Proof.
  exact (proj1 (C8_handshake demoEnv 1
                  (toggleSession demoEnv ConnectPending initialState)
                  eq_refl)).
Defined.

(** C8 as stated fails: after the handshake the status is [IDLE], which is
    a different value of [JarvisStatus] than [LISTENING]. *)
Lemma C8_counterexample :
  let s' := onopen demoEnv 1
              (toggleSession demoEnv ConnectPending initialState) in
  status s' = IDLE /\ status s' <> LISTENING.
Proof. vm_compute. split; [reflexivity | discriminate]. Qed.

(** ** A handshake that completes after the user has stopped *)

(** C9 (amended). The settlement of an in-flight open is not checked
    against the connection intent.  From every state: after the user's stop
    the intent flag is set and nothing is connected; when the channel then
    opens, [onopen] takes effect as after any handshake: the component is
    connected, its status is Idle, the attempt counter is 0 and the intent
    flag is cleared; and when [sessionPromise] resolves the session is
    stored. *)
Theorem C9_open_settles_unchecked (env : Env) (stream session : positive)
  (s : State) :
  let stopped := disconnect env s in
  let s' := onopen env stream stopped in
  isIntentionalDisconnectRef stopped = true
  /\ isConnected stopped = false
  /\ isConnected s' = true
  /\ isIntentionalDisconnectRef s' = false
  /\ status s' = IDLE
  /\ reconnectAttemptsRef s' = 0%Z
  /\ sessionRef (sessionResolved session s') = Some session.
Proof.
  cbv zeta. split; [| split].
  - unfold disconnect, disconnect_resume. cbn.
    apply disconnect_begin_intentional.
  - unfold disconnect, disconnect_resume, disconnect_begin. cbn.
    apply cleanup_isConnected.
  - unfold onopen. cbn.
    destruct (audioContextRef _); repeat split; reflexivity.
Qed.

(** C9 as stated fails. The user starts a session and stops it while the
    handshake is in flight ([toggleSession] runs [disconnect] when
    [isConnectingRef] is set); the stop releases the microphone stream and
    leaves the intent flag set.  When the channel then opens the component
    is connected again and the flag is cleared; a capture pipeline is
    started on the released stream, and the next close starts the
    reconnection loop. *)
Lemma C9_counterexample :
  let inFlight := toggleSession demoEnv ConnectPending initialState in
  let stopped := toggleSession demoEnv ConnectPending inFlight in
  let s' := onopen demoEnv 1 stopped in
  isConnectingRef inFlight = true
  /\ isIntentionalDisconnectRef stopped = true
  /\ isConnected stopped = false
  /\ last (effects stopped) = Some (StreamStop 1)
  /\ isConnected s' <> isConnected stopped
  /\ isIntentionalDisconnectRef s' <> isIntentionalDisconnectRef stopped
  /\ last (effects s') = Some (CaptureStart 1 2)
  /\ timers (onclose demoEnv s') = [(3%positive, 3000%Z)].
Proof. vm_compute. repeat split; discriminate. Qed.

(** ** The history of finished turns *)

Section History.

Variable env : Env.

(** Only the turn-complete block writes [transcriptions]. *)
Lemma transcriptions_handleReconnection s :
  transcriptions (handleReconnection env s) = transcriptions s.
Proof.
  unfold handleReconnection, handleReconnection_resume.
  destruct (isIntentionalDisconnectRef (cleanup s));
    [apply cleanup_transcriptions |].
  destruct (_ <? _)%Z; cbn; apply cleanup_transcriptions.
Qed.

Lemma transcriptions_initSessionSeeing seen r s :
  transcriptions (initSessionSeeing env seen r s) = transcriptions s.
Proof.
  unfold initSessionSeeing, initSession_catch.
  destruct (isConnectingRef s); [reflexivity |].
  destruct (_ && _); [reflexivity |].
  destruct keyMissing; [| destruct r];
    rewrite ?transcriptions_handleReconnection;
    destruct (_ =? _)%Z; reflexivity.
Qed.

Lemma transcriptions_disconnect s :
  transcriptions (disconnect env s) = transcriptions s.
Proof.
  unfold disconnect, disconnect_resume, disconnect_begin, clearReconnectTimer.
  cbn. rewrite cleanup_transcriptions.
  destruct (reconnectTimerRef s); reflexivity.
Qed.

Lemma transcriptions_handleParts parts s :
  transcriptions (foldl (λ s part, handlePart env part s) s parts)
  = transcriptions s.
Proof.
  revert s. induction parts as [| p parts IH]; intros s; [reflexivity |].
  cbn [foldl]. rewrite IH. unfold handlePart.
  destruct (inlineData p) as [d |]; [| reflexivity].
  destruct (String.prefix _ _); [reflexivity |].
  destruct (String.eqb _ _); [| reflexivity].
  unfold scheduleAudio. destruct (outputAudioContextRef s); reflexivity.
Qed.

Lemma transcriptions_handleTranscription sc s :
  transcriptions (handleTranscription sc s) = transcriptions s.
Proof.
  unfold handleTranscription.
  destruct (sc ≫= outputTranscription), (sc ≫= inputTranscription);
    reflexivity.
Qed.

Lemma transcriptions_handleTurnComplete s :
  exists item,
    transcriptions (handleTurnComplete env s)
    = slice_last 5 (transcriptions s ++ [item]).
Proof.
  unfold handleTurnComplete.
  destruct (truthy (input _)), (truthy (output _)); eexists; reflexivity.
Qed.

(** What one inbound message does to the history. *)
Lemma transcriptions_onmessage m s :
  let s' := onmessage env m s in
  if default false (turnComplete <$> serverContent m)
  then exists item,
         transcriptions s' = slice_last 5 (transcriptions s ++ [item])
  else transcriptions s' = transcriptions s.
Proof.
  cbv zeta. unfold onmessage.
  assert (forall x, transcriptions
            (if default false (interrupted <$> serverContent m)
             then handleInterrupted env x else x) = transcriptions x) as Hint
    by (intros x; destruct (default false _); reflexivity).
  rewrite Hint, transcriptions_handleParts.
  destruct (default false (turnComplete <$> serverContent m)).
  - destruct (transcriptions_handleTurnComplete
                (handleTranscription (serverContent m) s)) as (item & ->).
    rewrite transcriptions_handleTranscription. eauto.
  - apply transcriptions_handleTranscription.
Qed.

Lemma length_slice_last {A} (n : nat) (l : list A) :
  length (slice_last n l) = min n (length l).
Proof. unfold slice_last. rewrite length_drop. lia. Qed.

Lemma transcriptions_step s e :
  length (transcriptions s) <= 5 ->
  length (transcriptions (step env s e)) <= 5.
Proof.
  intros H. destruct e; cbn [step].
  - unfold toggleSession. destruct (_ || _).
    + now rewrite transcriptions_disconnect.
    + unfold initSession. now rewrite transcriptions_initSessionSeeing.
  - unfold fireTimer. destruct (pending t s); [| exact H].
    destruct (isIntentionalDisconnectRef _); [exact H |].
    now rewrite transcriptions_initSessionSeeing.
  - exact H.
  - unfold sessionRejected, initSession_catch.
    now rewrite transcriptions_handleReconnection.
  - unfold onopen. cbn. destruct (audioContextRef s); exact H.
  - pose proof (transcriptions_onmessage m s) as Hm. cbv zeta in Hm.
    destruct (default false _).
    + destruct Hm as (item & ->). rewrite length_slice_last.
      apply Nat.le_min_l.
    + now rewrite Hm.
  - unfold onerror. destruct (isIntentionalDisconnectRef s); [exact H |].
    now rewrite transcriptions_handleReconnection.
  - unfold onclose. destruct (isIntentionalDisconnectRef s); [exact H |].
    now rewrite transcriptions_handleReconnection.
  - exact H.
Qed.

Lemma transcriptions_run es s :
  length (transcriptions s) <= 5 ->
  length (transcriptions (run env es s)) <= 5.
Proof.
  revert s. induction es as [| e es IH]; intros s H; [exact H |].
  apply IH, transcriptions_step, H.
Qed.

(** C10. In every state the component can reach, the history of finished
    turns holds at most 5 items.  A message without the turn-complete
    signal leaves it as it is; a message with the signal appends exactly
    one item and keeps the last 5 of the result, so the new item is the
    last one and whatever came before the last 5 is dropped. *)
Theorem C10_transcription_history (es : list Event)
  (m : LiveServerMessage) :
  let s := run env es initialState in
  let s' := onmessage env m s in
  length (transcriptions s) <= 5
  /\ if default false (turnComplete <$> serverContent m)
     then exists item,
            let all := transcriptions s ++ [item] in
            transcriptions s' = drop (length all - 5) all
            /\ last (transcriptions s') = Some item
            /\ length (transcriptions s') = min 5 (length all)
            /\ length (transcriptions s') <= length (transcriptions s) + 1
     else transcriptions s' = transcriptions s.
Proof.
  cbv zeta. split; [apply transcriptions_run; cbn; lia |].
  pose proof (transcriptions_onmessage m (run env es initialState)) as Hm.
  cbv zeta in Hm. destruct (default false _); [| exact Hm].
  destruct Hm as (item & Hm). exists item. rewrite Hm.
  split; [reflexivity |]. split; [apply last_slice_last |].
  rewrite length_slice_last, length_app. cbn [length].
  split; [reflexivity |].
  etrans; [apply Nat.le_min_r | lia].
Qed.

End History.

(** * Further properties of the component *)

(** ** Inbound messages and the connection *)

Section MessagesAndLifecycle.

Variable env : Env.

Ltac split_cases :=
  repeat match goal with
         | |- context [if ?c then _ else _] => destruct c
         | |- context [match ?c with Some _ => _ | None => _ end] =>
             destruct c
         end.

Lemma acquisitions_emit e s :
  acquisitions (emit e s)
  = acquisitions s ++ (if isAcquire e then [e] else []).
Proof. unfold acquisitions, emit. cbn. now rewrite List.filter_app. Qed.

Lemma handlePart_lifecycle part s :
  lifecycle (handlePart env part s) = lifecycle s
  /\ acquisitions (handlePart env part s) = acquisitions s.
Proof.
  unfold handlePart, scheduleAudio. split_cases; split; try reflexivity.
  unfold acquisitions. cbn. rewrite List.filter_app. cbn.
  apply app_nil_r.
Qed.

Lemma handleParts_lifecycle parts s :
  lifecycle (foldl (λ s part, handlePart env part s) s parts) = lifecycle s
  /\ acquisitions (foldl (λ s part, handlePart env part s) s parts)
     = acquisitions s.
Proof.
  revert s. induction parts as [| p parts IH]; intros s; [split; reflexivity |].
  cbn [foldl]. destruct (IH (handlePart env p s)) as [-> ->].
  apply handlePart_lifecycle.
Qed.

Lemma handleInterrupted_lifecycle s :
  lifecycle (handleInterrupted env s) = lifecycle s
  /\ acquisitions (handleInterrupted env s) = acquisitions s.
Proof.
  split; [reflexivity |]. unfold acquisitions. cbn.
  rewrite List.filter_app, filter_isAcquire_stops. apply app_nil_r.
Qed.

Lemma onmessage_lifecycle (m : LiveServerMessage) (s : State) :
  lifecycle (onmessage env m s) = lifecycle s
  /\ acquisitions (onmessage env m s) = acquisitions s.
Proof.
  unfold onmessage.
  assert (forall x, lifecycle (handleTranscription (serverContent m) x)
                    = lifecycle x
                    /\ acquisitions (handleTranscription (serverContent m) x)
                       = acquisitions x) as Htr.
  { intros x. unfold handleTranscription. split_cases; split; reflexivity. }
  assert (forall x, lifecycle (handleTurnComplete env x) = lifecycle x
                    /\ acquisitions (handleTurnComplete env x)
                       = acquisitions x) as Htc.
  { intros x. unfold handleTurnComplete. split_cases; split; reflexivity. }
  destruct (default false (interrupted <$> serverContent m)).
  - destruct (handleInterrupted_lifecycle
                (foldl (λ s part, handlePart env part s)
                   (if default false (turnComplete <$> serverContent m)
                    then handleTurnComplete env
                           (handleTranscription (serverContent m) s)
                    else handleTranscription (serverContent m) s)
                   (default [] (serverContent m ≫= modelTurn))))
      as [-> ->].
    destruct (handleParts_lifecycle
                (default [] (serverContent m ≫= modelTurn))
                (if default false (turnComplete <$> serverContent m)
                 then handleTurnComplete env
                        (handleTranscription (serverContent m) s)
                 else handleTranscription (serverContent m) s)) as [-> ->].
    destruct (default false (turnComplete <$> serverContent m)).
    + destruct (Htc (handleTranscription (serverContent m) s)) as [-> ->].
      apply Htr.
    + apply Htr.
  - destruct (handleParts_lifecycle
                (default [] (serverContent m ≫= modelTurn))
                (if default false (turnComplete <$> serverContent m)
                 then handleTurnComplete env
                        (handleTranscription (serverContent m) s)
                 else handleTranscription (serverContent m) s)) as [-> ->].
    destruct (default false (turnComplete <$> serverContent m)).
    + destruct (Htc (handleTranscription (serverContent m) s)) as [-> ->].
      apply Htr.
    + apply Htr.
Qed.


(** X1. Whatever a message carries (transcripts, a turn boundary, images,
    audio, an interruption), handling it does not touch the connection:
    the connected and connecting flags, the intent flag, the attempt
    counter, the timers and the held session, stream and processor stay as
    they are, and neither the microphone nor the channel is requested. *)
Theorem X1_messages_leave_lifecycle (m : LiveServerMessage) (s : State) :
  lifecycle (onmessage env m s) = lifecycle s
  /\ acquisitions (onmessage env m s) = acquisitions s.
Proof. exact (onmessage_lifecycle m s). Qed.

End MessagesAndLifecycle.

Arguments slice_first {A} n l : simpl never.

(** ** The backoff formula *)

Section Backoff.

Lemma backoffDelay_bounds n :
  (1 <= n)%Z -> (3000 <= backoffDelay n <= 15000)%Z.
Proof.
  intros Hn. unfold backoffDelay, RECONNECT_DELAY_BASE.
  assert (2 ^ 0 <= 2 ^ (n - 1))%Z as Hpow
    by (apply Z.pow_le_mono_r; lia).
  change (2 ^ 0)%Z with 1%Z in Hpow. lia.
Qed.

Lemma backoffDelay_mono n m :
  (1 <= n <= m)%Z -> (backoffDelay n <= backoffDelay m)%Z.
Proof.
  intros Hnm. unfold backoffDelay, RECONNECT_DELAY_BASE.
  assert (2 ^ (n - 1) <= 2 ^ (m - 1))%Z as Hpow
    by (apply Z.pow_le_mono_r; lia).
  lia.
Qed.

(** X2. The backoff delay, for every attempt number from 1 on (not only
    up to the ceiling): it is never below 3 seconds nor above 15, it never
    shrinks as the attempts go up, it doubles from the first to the second
    and from the second to the third attempt, and from the fourth attempt
    on it is exactly 15 seconds. *)
Theorem X2_backoff_shape (n m : Z) :
  (1 <= n <= m)%Z ->
  (3000 <= backoffDelay n <= 15000)%Z
  /\ (backoffDelay n <= backoffDelay m)%Z
  /\ (n <= 2 -> backoffDelay (n + 1) = 2 * backoffDelay n)%Z
  /\ (4 <= n -> backoffDelay n = 15000)%Z.
Proof.
  intros Hnm. split; [apply backoffDelay_bounds; lia |].
  split; [now apply backoffDelay_mono |]. split.
  - intros Hle. assert (n = 1 \/ n = 2)%Z as [-> | ->] by lia; reflexivity.
  - intros Hge. unfold backoffDelay, RECONNECT_DELAY_BASE.
    assert (2 ^ 3 <= 2 ^ (n - 1))%Z as Hpow
      by (apply Z.pow_le_mono_r; lia).
    change (2 ^ 3)%Z with 8%Z in Hpow. lia.
Qed.

End Backoff.

(** X2 between the second and the seventh attempt. *)
Lemma X2_backoff_shape_witness :
  (backoffDelay 2 <= backoffDelay 7)%Z.
Proof.
  exact (proj1 (proj2 (X2_backoff_shape 2 7 ltac:(lia)))).
Defined.

(** ** Invariants of every run *)

Section Invariants.

Variable env : Env.

Ltac split_cases :=
  repeat match goal with
         | |- context [if ?c then _ else _] => destruct c
         | |- context [match ?c with Some _ => _ | None => _ end] =>
             destruct c
         end.

(** *** The activity log *)

Lemma LogExt_trans l1 l2 l3 : LogExt l1 l2 -> LogExt l2 l3 -> LogExt l1 l3.
Proof.
  intros H12 H23. induction H23 as [| l3 e H23 IH]; [exact H12 |].
  now apply LogExt_add.
Qed.

Lemma LogExt_length l l' :
  LogExt l l' -> length l <= 30 -> length l' <= 30.
Proof.
  intros H Hl. destruct H as [| l' e H]; [exact Hl |].
  unfold slice_first. rewrite length_take. apply Nat.le_min_l.
Qed.

Lemma LogExt_nonempty l l' : LogExt l l' -> l <> [] -> l' <> [].
Proof.
  intros H Hl. destruct H as [| l' e H]; [exact Hl |]. discriminate.
Qed.



Ltac logext :=
  repeat first
    [ assumption
    | apply LogExt_add
    | rewrite cleanup_logs
    | progress cbn
    | match goal with
      | |- context [if ?c then _ else _] => destruct c
      | |- context [match ?c with Some _ => _ | None => _ end] => destruct c
      end ].

Lemma LogExt_handleReconnection l s :
  LogExt l (logs s) -> LogExt l (logs (handleReconnection env s)).
Proof.
  intros H. unfold handleReconnection, handleReconnection_resume. logext.
Qed.

Lemma LogExt_initSession_catch l s :
  LogExt l (logs s) -> LogExt l (logs (initSession_catch env s)).
Proof.
  intros H. unfold initSession_catch.
  apply LogExt_handleReconnection. logext.
Qed.

Lemma LogExt_initSession l seen r s :
  LogExt l (logs s) -> LogExt l (logs (initSessionSeeing env seen r s)).
Proof.
  intros H. unfold initSessionSeeing.
  destruct (isConnectingRef s); [exact H |].
  destruct (_ && _); [exact H |].
  destruct keyMissing; [| destruct r];
    try apply LogExt_initSession_catch; logext.
Qed.

Lemma LogExt_disconnect l s :
  LogExt l (logs s) -> LogExt l (logs (disconnect env s)).
Proof.
  intros H.
  unfold disconnect, disconnect_resume, disconnect_begin, clearReconnectTimer.
  logext.
Qed.

Lemma LogExt_handleParts l parts s :
  LogExt l (logs s) ->
  LogExt l (logs (foldl (λ s part, handlePart env part s) s parts)).
Proof.
  revert s. induction parts as [| p parts IH]; intros s H; [exact H |].
  cbn [foldl]. apply IH. unfold handlePart, scheduleAudio. logext.
Qed.

Lemma LogExt_onmessage l m s :
  LogExt l (logs s) -> LogExt l (logs (onmessage env m s)).
Proof.
  intros H. unfold onmessage.
  assert (LogExt l (logs (handleTranscription (serverContent m) s))) as H1
    by (unfold handleTranscription; logext).
  assert (LogExt l (logs (if default false (turnComplete <$> serverContent m)
                          then handleTurnComplete env
                                 (handleTranscription (serverContent m) s)
                          else handleTranscription (serverContent m) s)))
    as H2.
  { destruct (default false _); [| exact H1].
    unfold handleTurnComplete. logext. }
  pose proof (LogExt_handleParts l
                (default [] (serverContent m ≫= modelTurn)) _ H2) as H3.
  destruct (default false (interrupted <$> serverContent m)); [| exact H3].
  unfold handleInterrupted. logext.
Qed.

Lemma LogExt_step l s e :
  LogExt l (logs s) -> LogExt l (logs (step env s e)).
Proof.
  intros H. destruct e; cbn [step].
  - unfold toggleSession. destruct (_ || _).
    + now apply LogExt_disconnect.
    + unfold initSession. now apply LogExt_initSession.
  - unfold fireTimer. destruct (pending t s); [| exact H].
    destruct (isIntentionalDisconnectRef _); [exact H |].
    now apply LogExt_initSession.
  - exact H.
  - now apply LogExt_initSession_catch.
  - unfold onopen. logext.
  - now apply LogExt_onmessage.
  - unfold onerror. destruct (isIntentionalDisconnectRef s); [exact H |].
    apply LogExt_handleReconnection. logext.
  - unfold onclose. destruct (isIntentionalDisconnectRef s); [exact H |].
    apply LogExt_handleReconnection. logext.
  - exact H.
Qed.

Lemma LogExt_run es s : LogExt (logs s) (logs (run env es s)).
Proof.
  assert (forall l, LogExt l (logs s) -> LogExt l (logs (run env es s)))
    as Hgen.
  { revert s. induction es as [| e es IH]; intros s l H; [exact H |].
    apply (IH (step env s e)). now apply LogExt_step. }
  apply Hgen. constructor.
Qed.

(** X3. The activity log never holds more than 30 entries: from a log
    within the cap (the empty log of a fresh component in particular),
    every sequence of user actions, timers and channel events leaves at
    most 30 entries. *)
Theorem X3_log_capped (es : list Event) (s : State) :
  length (logs s) <= 30 ->
  length (logs (run env es s)) <= 30
  /\ length (logs (run env es initialState)) <= 30.
Proof.
  intros Hs. split.
  - exact (LogExt_length _ _ (LogExt_run es s) Hs).
  - apply (LogExt_length _ _ (LogExt_run es initialState)). cbn. lia.
Qed.


End Invariants.

(** X3 after a failed start on a fresh component. *)
Lemma X3_log_capped_witness :
  length (logs (run demoEnv [ToggleSession MicDenied] initialState)) <= 30.
Proof.
  exact (proj1 (X3_log_capped demoEnv [ToggleSession MicDenied] initialState
                  ltac:(cbn; lia))).
Defined.


(** *** The attempt counter and the timers *)

Section Bounds.

Variable env : Env.

Lemma Bounded_ext s s' :
  reconnectAttemptsRef s' = reconnectAttemptsRef s ->
  timers s' = timers s ->
  Bounded s -> Bounded s'.
Proof. unfold Bounded. intros -> ->. auto. Qed.

Lemma Bounded_reset s v :
  Bounded s -> Bounded (set_reconnectAttemptsRef 0 (set_status v s)).
Proof.
  unfold Bounded, MAX_RECONNECT_ATTEMPTS. cbn. intros [_ Ht]. split; [lia | auto].
Qed.

Lemma Bounded_dropTimer t s : Bounded s -> Bounded (dropTimer t s).
Proof.
  unfold Bounded, dropTimer. cbn. intros [Ha Ht]. split; [exact Ha |].
  rewrite Forall_forall in *. intros p Hp.
  apply list_elem_of_filter in Hp as [_ Hp]. auto.
Qed.

Lemma Bounded_cleanup s : Bounded s -> Bounded (cleanup s).
Proof. apply Bounded_ext; [apply cleanup_attempts | apply cleanup_timers]. Qed.

Lemma Bounded_addLog msg src s : Bounded s -> Bounded (addLog env msg src s).
Proof. apply Bounded_ext; reflexivity. Qed.

Lemma Bounded_handleReconnection s :
  Bounded s -> Bounded (handleReconnection env s).
Proof.
  intros H. apply Bounded_cleanup in H.
  unfold handleReconnection, handleReconnection_resume.
  destruct (isIntentionalDisconnectRef (cleanup s)); [exact H |].
  destruct H as [Ha Ht].
  destruct (Z.ltb_spec (reconnectAttemptsRef (cleanup s))
              MAX_RECONNECT_ATTEMPTS) as [Hlt | Hge].
  - unfold Bounded. cbn. split; [lia |].
    apply Forall_app. split; [exact Ht |].
    apply Forall_singleton. cbn. apply backoffDelay_bounds. lia.
  - unfold Bounded, MAX_RECONNECT_ATTEMPTS. cbn. split; [lia | exact Ht].
Qed.

Lemma Bounded_initSession_catch s :
  Bounded s -> Bounded (initSession_catch env s).
Proof.
  intros H. unfold initSession_catch. apply Bounded_handleReconnection.
  revert H. apply Bounded_ext; reflexivity.
Qed.

Lemma Bounded_initSession seen r s :
  Bounded s -> Bounded (initSessionSeeing env seen r s).
Proof.
  intros H. unfold initSessionSeeing.
  destruct (isConnectingRef s); [exact H |].
  destruct (_ && _); [exact H |].
  destruct keyMissing; [| destruct r];
    try apply Bounded_initSession_catch;
    (revert H; apply Bounded_ext; destruct (_ =? _)%Z; reflexivity).
Qed.

Lemma Bounded_disconnect s : Bounded s -> Bounded (disconnect env s).
Proof.
  intros H. unfold disconnect, disconnect_resume.
  apply Bounded_addLog.
  assert (Bounded (disconnect_begin s)) as [_ Ht].
  { unfold disconnect_begin. apply Bounded_cleanup.
    unfold clearReconnectTimer. cbn.
    destruct (reconnectTimerRef s) as [t |].
    - unfold clearTimeout. cbn.
      apply (Bounded_dropTimer t (set_isIntentionalDisconnectRef true s)).
      revert H. apply Bounded_ext; reflexivity.
    - revert H. apply Bounded_ext; reflexivity. }
  unfold Bounded, MAX_RECONNECT_ATTEMPTS. cbn. split; [lia | exact Ht].
Qed.

Lemma Bounded_onmessage m s : Bounded s -> Bounded (onmessage env m s).
Proof.
  pose proof (proj1 (onmessage_lifecycle env m s)) as Hl.
  unfold lifecycle in Hl. apply Bounded_ext; congruence.
Qed.

Lemma Bounded_step s e : Bounded s -> Bounded (step env s e).
Proof.
  intros H. destruct e; cbn [step].
  - unfold toggleSession. destruct (_ || _).
    + now apply Bounded_disconnect.
    + unfold initSession. apply Bounded_initSession. destruct H as [_ Ht].
      unfold Bounded, MAX_RECONNECT_ATTEMPTS. cbn. split; [lia | exact Ht].
  - unfold fireTimer. destruct (pending t s); [| exact H].
    pose proof (Bounded_dropTimer t s H) as Hd.
    destruct (isIntentionalDisconnectRef _); [exact Hd |].
    now apply Bounded_initSession.
  - exact H.
  - now apply Bounded_initSession_catch.
  - unfold onopen. destruct H as [_ Ht]. cbn.
    destruct (audioContextRef s);
      unfold Bounded, MAX_RECONNECT_ATTEMPTS; cbn; (split; [lia | exact Ht]).
  - now apply Bounded_onmessage.
  - unfold onerror. destruct (isIntentionalDisconnectRef s); [exact H |].
    apply Bounded_handleReconnection. now apply Bounded_addLog.
  - unfold onclose. destruct (isIntentionalDisconnectRef s); [exact H |].
    apply Bounded_handleReconnection. now apply Bounded_addLog.
  - exact H.
Qed.

Lemma Bounded_run es s : Bounded s -> Bounded (run env es s).
Proof.
  revert s. induction es as [| e es IH]; intros s H; [exact H |].
  apply (IH (step env s e)). now apply Bounded_step.
Qed.

Lemma Bounded_initialState : Bounded initialState.
Proof.
  unfold Bounded, MAX_RECONNECT_ATTEMPTS. cbn. split; [lia | constructor].
Qed.

(** X5. In every state the component can reach, the attempt counter is
    between 0 and 5. *)
Theorem X5_attempts_within_ceiling (es : list Event) :
  (0 <= reconnectAttemptsRef (run env es initialState) <= 5)%Z.
Proof. exact (proj1 (Bounded_run es initialState Bounded_initialState)). Qed.

(** X6. In every state the component can reach, every reconnection timer
    that is pending was set for at least 3 and at most 15 seconds. *)
Theorem X6_timers_within_backoff (es : list Event) (t : positive)
  (delay : Z) :
  (t, delay) ∈ timers (run env es initialState) ->
  (3000 <= delay <= 15000)%Z.
Proof.
  intros Hin.
  pose proof (proj2 (Bounded_run es initialState Bounded_initialState)) as H.
  rewrite Forall_forall in H. exact (H _ Hin).
Qed.

End Bounds.

(** X6 on the timer a failed start leaves behind. *)
Lemma X6_timers_within_backoff_witness :
  (1%positive, 3000%Z)
    ∈ timers (run demoEnv [ToggleSession MicDenied] initialState)
  /\ (3000 <= 3000 <= 15000)%Z.
Proof.
  assert ((1%positive, 3000%Z)
            ∈ timers (run demoEnv [ToggleSession MicDenied] initialState))
    as Hin by (vm_compute; apply list_elem_of_here).
  split; [exact Hin |].
  exact (X6_timers_within_backoff demoEnv [ToggleSession MicDenied] 1 3000
           Hin).
Defined.

(** ** Teardown *)

Section Teardown.

Variable env : Env.

Lemma cleanup_Released s : Released (cleanup s).
Proof.
  unfold Released, cleanup.
  destruct (sessionRef s) eqn:E1; simpl;
    destruct (scriptProcessorRef s) eqn:E2; simpl;
    destruct (mediaStreamRef s) eqn:E3; simpl;
    rewrite ?E1, ?E2, ?E3; repeat split; reflexivity.
Qed.

Lemma cleanup_effects s : effects (cleanup s) = effects s ++ releases s.
Proof.
  unfold releases, cleanup.
  destruct (sessionRef s) eqn:E1; simpl;
    destruct (scriptProcessorRef s) eqn:E2; simpl;
    destruct (mediaStreamRef s) eqn:E3; simpl;
    rewrite ?E1, ?E2, ?E3; simpl; rewrite <- ?app_assoc; reflexivity.
Qed.

Lemma cleanup_of_Released s : Released s -> cleanup s = s.
Proof.
  intros (H1 & H2 & H3 & H4 & H5 & H6 & H7).
  destruct s. cbn in *. subst. unfold cleanup. cbn.
  rewrite elements_empty. cbn. unfold emits. cbn.
  now rewrite app_nil_r.
Qed.

(** X7. Teardown is idempotent. After [cleanup] nothing is held and the
    flags and the cursor are at rest; running it again, or running it on a
    component that holds nothing, changes nothing and asks the browser for
    nothing; and what a teardown asks for is exactly one release per held
    resource: the session, the processor, the stream, then every active
    source. *)
Theorem X7_cleanup_idempotent (s : State) :
  Released (cleanup s)
  /\ cleanup (cleanup s) = cleanup s
  /\ effects (cleanup s) = effects s ++ releases s
  /\ (Released s -> cleanup s = s).
Proof.
  split; [apply cleanup_Released |].
  split; [apply cleanup_of_Released, cleanup_Released |].
  split; [apply cleanup_effects | apply cleanup_of_Released].
Qed.

Lemma pending_dropTimer t s : pending t (dropTimer t s) = false.
Proof.
  unfold pending, dropTimer. cbn. apply bool_decide_false.
  intros Hin. apply list_elem_of_fmap in Hin as ([t' d] & Ht & Hin).
  cbn in Ht. subst t'. apply list_elem_of_filter in Hin as [Hne _].
  now apply Hne.
Qed.

Lemma pending_cleanup t s : pending t (cleanup s) = pending t s.
Proof. unfold pending. now rewrite cleanup_timers. Qed.

(** X8. A stop, from any state: afterwards nothing is held, the status is
    Idle, the live preview and the hologram are gone, the attempt counter
    is 0, the intent flag is set, the timer the component remembers is no
    longer pending (its cancellation was asked for), no timer was added,
    and the newest log entry is the stand-by notice. *)
Theorem X8_stop_resets (s : State) :
  let s' := disconnect env s in
  Released s'
  /\ status s' = IDLE
  /\ currentTranscription s' = None
  /\ currentHologram s' = None
  /\ reconnectAttemptsRef s' = 0%Z
  /\ isIntentionalDisconnectRef s' = true
  /\ (forall t, reconnectTimerRef s = Some t ->
        pending t s' = false /\ ClearTimeout t ∈ effects s')
  /\ timers s' `sublist_of` timers s
  /\ (message <$> head (logs s'))
     = Some "System Standby. Communications array powered down."
  /\ (source <$> head (logs s')) = Some SYSTEM.
Proof.
  cbv zeta. unfold disconnect, disconnect_resume.
  pose proof (cleanup_Released
                (clearReconnectTimer (set_isIntentionalDisconnectRef true s)))
    as HR.
  fold (disconnect_begin s) in HR.
  split; [exact HR |]. do 4 (split; [reflexivity |]).
  split; [cbn; apply disconnect_begin_intentional |].
  split; [| split; [cbn; apply disconnect_begin_timers |
                    split; reflexivity]].
  intros t Ht. cbn.
  change (pending t (disconnect_begin s) = false
          /\ ClearTimeout t ∈ effects (disconnect_begin s)).
  unfold disconnect_begin, clearReconnectTimer. cbn. rewrite Ht.
  rewrite pending_cleanup, cleanup_effects. split.
  - unfold clearTimeout. apply (pending_dropTimer t).
  - apply elem_of_app. left. unfold clearTimeout, emit. cbn.
    apply elem_of_app. right. apply list_elem_of_here.
Qed.

(** X9. Unmounting cancels the remembered timer and tears everything
    down, but it does not set the intent flag (and leaves status, counter
    and log alone): if the flag was clear and fewer than five attempts were
    counted, a close event that arrives afterwards still counts an attempt
    and schedules a reconnection. *)
Theorem X9_unmount_keeps_intent (s : State) :
  let s' := unmount s in
  Released s'
  /\ (forall t, reconnectTimerRef s = Some t -> pending t s' = false)
  /\ isIntentionalDisconnectRef s' = isIntentionalDisconnectRef s
  /\ status s' = status s
  /\ reconnectAttemptsRef s' = reconnectAttemptsRef s
  /\ logs s' = logs s
  /\ (isIntentionalDisconnectRef s = false ->
      (reconnectAttemptsRef s < MAX_RECONNECT_ATTEMPTS)%Z ->
      timers (onclose env s')
      = timers s' ++ [(nextHandle s,
                       backoffDelay (reconnectAttemptsRef s + 1))]).
Proof.
  cbv zeta. unfold unmount.
  assert (forall x, clearReconnectTimer s = x ->
            isIntentionalDisconnectRef x = isIntentionalDisconnectRef s
            /\ status x = status s
            /\ reconnectAttemptsRef x = reconnectAttemptsRef s
            /\ logs x = logs s /\ nextHandle x = nextHandle s) as Hframe.
  { intros x <-. unfold clearReconnectTimer.
    destruct (reconnectTimerRef s); repeat split. }
  destruct (Hframe _ eq_refl) as (Hi & Hs & Ha & Hl & Hn).
  split; [apply cleanup_Released |].
  split.
  { intros t Ht. rewrite pending_cleanup. unfold clearReconnectTimer.
    rewrite Ht. unfold clearTimeout. apply (pending_dropTimer t). }
  autorewrite with cleanup_rw. do 4 (split; [assumption |]).
  intros Hint Hlt. unfold onclose.
  autorewrite with cleanup_rw. rewrite Hi, Hint.
  match goal with |- context [handleReconnection env ?y] =>
    destruct (handleReconnection_retry env y) as (_ & Ht & _)
  end.
  - cbn. autorewrite with cleanup_rw. now rewrite Hi.
  - cbn. autorewrite with cleanup_rw. now rewrite Ha.
  - rewrite Ht. cbn. autorewrite with cleanup_rw. now rewrite Ha, Hn.
Qed.

End Teardown.

(** ** Starting and restarting *)

Section Starting.

Variable env : Env.

(** X10. The re-entrancy guard. While an attempt is in flight
    ([isConnectingRef] set), [initSession] does nothing at all, whatever
    its closure saw, so a reconnection timer that fires then only
    disappears from the pending timers: nothing is requested and neither
    the status nor the log changes. *)
Theorem X10_no_second_attempt (r : InitResult) (t : positive) (s : State) :
  isConnectingRef s = true ->
  initSession env r s = s
  /\ (forall seen, initSessionSeeing env seen r s = s)
  /\ fireTimer env t r s = (if pending t s then dropTimer t s else s)
  /\ acquisitions (fireTimer env t r s) = acquisitions s
  /\ status (fireTimer env t r s) = status s
  /\ logs (fireTimer env t r s) = logs s.
Proof.
  intros Hguard.
  assert (forall seen x, isConnectingRef x = true ->
            initSessionSeeing env seen r x = x) as Hinit.
  { intros seen x Hc. unfold initSessionSeeing. now rewrite Hc. }
  split; [now apply Hinit |]. split; [intros seen; now apply Hinit |].
  assert (fireTimer env t r s = (if pending t s then dropTimer t s else s))
    as Hfire.
  { unfold fireTimer. destruct (pending t s); [| reflexivity].
    rewrite (Hinit false (dropTimer t s)) by exact Hguard.
    destruct (isIntentionalDisconnectRef _); reflexivity. }
  split; [exact Hfire |]. rewrite Hfire.
  destruct (pending t s); repeat split; reflexivity.
Qed.

(** X11. A successful handshake resets the backoff: whatever the counter
    was when the channel opened, the first loss of that connection counts
    attempt 1 and schedules the reconnection after 3 seconds. *)
Theorem X11_handshake_resets_backoff (stream : positive) (s : State) :
  let s1 := onopen env stream s in
  let s2 := onclose env s1 in
  reconnectAttemptsRef s1 = 0%Z
  /\ reconnectAttemptsRef s2 = 1%Z
  /\ timers s2 = timers s ++ [(nextHandle s1, 3000%Z)]
  /\ isConnected s2 = false.
Proof.
  cbv zeta.
  assert (reconnectAttemptsRef (onopen env stream s) = 0%Z
          /\ isIntentionalDisconnectRef (onopen env stream s) = false
          /\ timers (onopen env stream s) = timers s) as (Ha & Hi & Ht).
  { unfold onopen. cbn. destruct (audioContextRef s); repeat split. }
  split; [exact Ha |]. unfold onclose. rewrite Hi.
  match goal with |- context [handleReconnection env ?y] =>
    destruct (handleReconnection_retry env y)
      as (Ha' & Ht' & _ & _ & _ & _ & _ & _ & _ & Hk)
  end.
  - exact Hi.
  - cbn. rewrite Ha. unfold MAX_RECONNECT_ATTEMPTS. lia.
  - rewrite Ha', Ht', Hk. cbn. rewrite Ha, Ht. repeat split.
Qed.

(** X12. What the toggle button says is what a click does. When it reads
    [STANDBY] the click stops the session; when it reads [INIT_LINK] or
    [SEARCHING...] the click clears the counter and the intent flag and
    starts an attempt; it reads [LINKING...] exactly when it is disabled,
    and a click in that state (which [toggleSession] still handles) stops
    the attempt. *)
Theorem X12_button_matches_action (r : InitResult) (s : State) :
  (buttonLabel s = "STANDBY" -> toggleSession env r s = disconnect env s)
  /\ (buttonLabel s = "INIT_LINK" \/ buttonLabel s = "SEARCHING..." ->
      toggleSession env r s
      = initSession env r (set_isIntentionalDisconnectRef false
                             (set_reconnectAttemptsRef 0 s)))
  /\ (buttonLabel s = "LINKING..." <-> buttonDisabled s = true)
  /\ (buttonDisabled s = true -> toggleSession env r s = disconnect env s).
Proof.
  unfold buttonLabel, buttonDisabled, toggleSession.
  destruct (isConnectingRef s), (isConnected s),
           (isStatus (status s) RECONNECTING); cbn;
    repeat split; try reflexivity; try discriminate;
    intros H; try reflexivity; try discriminate;
    destruct H; discriminate.
Qed.

End Starting.

(** X10 while the first attempt of a fresh component is in flight. *)
Lemma X10_no_second_attempt_witness :
  let s := toggleSession demoEnv ConnectPending initialState in
  initSession demoEnv ConnectPending s = s.
Proof.
  intros s.
  exact (proj1 (X10_no_second_attempt demoEnv ConnectPending 1 s eq_refl)).
Defined.

(** ** What the panels show *)

Section Panels.

Variable env : Env.


(** X14. The log panel shows its placeholder exactly for an empty log,
    and once the log has an entry the placeholder never comes back,
    whatever happens afterwards; entries of different sources get
    different colours. *)
Theorem X14_placeholder_gone_for_good (es : list Event) (s : State)
  (a b : LogSource) :
  (showsNoActivity (logs s) = true <-> logs s = [])
  /\ (showsNoActivity (logs s) = false ->
      showsNoActivity (logs (run env es s)) = false)
  /\ (entryColour a = entryColour b -> a = b).
Proof.
  assert (forall l : list LogEntry, showsNoActivity l = true <-> l = [])
    as Hshow by (intros [| x l]; cbn; split; congruence).
  split; [apply Hshow |]. split.
  - intros Hs.
    destruct (showsNoActivity (logs (run env es s))) eqn:E; [| reflexivity].
    apply Hshow in E.
    assert (logs s <> []) as Hne.
    { intros H0. apply Hshow in H0. congruence. }
    destruct (LogExt_nonempty _ _ (LogExt_run env es s) Hne E).
  - destruct a, b; cbn; intros H; reflexivity || discriminate H.
Qed.

End Panels.

(** ** More on inbound messages *)

Section Messages.

Variable env : Env.

Ltac split_cases :=
  repeat match goal with
         | |- context [if ?c then _ else _] => destruct c
         | |- context [match ?c with Some _ => _ | None => _ end] =>
             destruct c
         end.

Local Abbreviation parts_of m := (default [] (serverContent m ≫= modelTurn)).

Lemma handleParts_transcript parts s :
  let s' := foldl (λ s part, handlePart env part s) s parts in
  transcriptionBufferRef s' = transcriptionBufferRef s
  /\ status s' = status s
  /\ currentTranscription s' = currentTranscription s.
Proof.
  revert s. induction parts as [| p parts IH]; intros s; cbv zeta;
    [repeat split |].
  cbn [foldl]. destruct (IH (handlePart env p s)) as (-> & -> & ->).
  unfold handlePart, scheduleAudio. split_cases; repeat split.
Qed.

(** X15. A message that carries both a partial output transcript and a
    partial input transcript is handled exactly as if it carried the output
    one alone: the user's text of that message is dropped and reaches
    neither a buffer, the preview nor the log.  If the message does not end
    the turn, the assistant's text is appended to its buffer and, unless
    the message interrupts, the status is Speaking and the preview shows
    the assistant's running text; if it ends the turn, both buffers are
    empty afterwards, the preview is cleared and the status is Idle. *)
Theorem X15_output_transcript_wins (sc : ServerContent) (o i : string)
  (s : State) :
  outputTranscription sc = Some o ->
  inputTranscription sc = Some i ->
  let s' := onmessage env {| serverContent := Some sc |} s in
  let buf := transcriptionBufferRef s in
  s' = onmessage env {| serverContent := Some (dropInput sc) |} s
  /\ (turnComplete sc = false ->
      transcriptionBufferRef s' = mkBuffer (input buf) (output buf +:+ o)
      /\ (interrupted sc = false ->
          status s' = SPEAKING
          /\ currentTranscription s'
             = Some (mkTranscriptionItem (output buf +:+ o) output_t)))
  /\ (turnComplete sc = true ->
      transcriptionBufferRef s' = mkBuffer "" ""
      /\ currentTranscription s' = None
      /\ status s' = IDLE).
Proof.
  intros Ho Hi. cbv zeta.
  assert (handleTranscription (Some sc) s
          = handleTranscription (Some (dropInput sc)) s) as Hdrop.
  { unfold handleTranscription. cbn. now rewrite Ho. }
  split; [unfold onmessage; cbn; now rewrite Hdrop |].
  unfold onmessage. cbn.
  assert (transcriptionBufferRef (handleTranscription (Some sc) s)
          = mkBuffer (input (transcriptionBufferRef s))
                     (output (transcriptionBufferRef s) +:+ o)
          /\ status (handleTranscription (Some sc) s) = SPEAKING
          /\ currentTranscription (handleTranscription (Some sc) s)
             = Some (mkTranscriptionItem
                       (output (transcriptionBufferRef s) +:+ o) output_t))
    as (Hb0 & Hs0 & Hp0).
  { unfold handleTranscription. cbn. rewrite Ho. repeat split. }
  split; intros Htc; rewrite Htc.
  - destruct (handleParts_transcript (default [] (modelTurn sc))
                (handleTranscription (Some sc) s)) as (Hb & Hs & Hp).
    cbv zeta in Hb, Hs, Hp.
    destruct (interrupted sc).
    + split; [cbn; rewrite Hb; exact Hb0 | discriminate].
    + split; [rewrite Hb; exact Hb0 |]. intros _.
      split; [rewrite Hs; exact Hs0 | rewrite Hp; exact Hp0].
  - destruct (handleParts_transcript (default [] (modelTurn sc))
                (handleTurnComplete env (handleTranscription (Some sc) s)))
      as (Hb & Hs & Hp).
    cbv zeta in Hb, Hs, Hp.
    assert (transcriptionBufferRef
              (handleTurnComplete env (handleTranscription (Some sc) s))
            = mkBuffer "" ""
            /\ currentTranscription
                 (handleTurnComplete env (handleTranscription (Some sc) s))
               = None
            /\ status
                 (handleTurnComplete env (handleTranscription (Some sc) s))
               = IDLE) as (Hb1 & Hp1 & Hs1).
    { unfold handleTurnComplete.
      destruct (truthy (input _)), (truthy (output _)); repeat split. }
    destruct (interrupted sc).
    + split; [cbn; rewrite Hb; exact Hb1 | split; reflexivity].
    + rewrite Hb, Hp, Hs. repeat split; assumption.
Qed.

Lemma cleanup_buffer s :
  transcriptionBufferRef (cleanup s) = transcriptionBufferRef s.
Proof.
  unfold cleanup.
  destruct (sessionRef s); simpl;
    destruct (scriptProcessorRef s); simpl;
    destruct (mediaStreamRef s); reflexivity.
Qed.

Lemma handleReconnection_buffer s :
  transcriptionBufferRef (handleReconnection env s)
  = transcriptionBufferRef s.
Proof.
  unfold handleReconnection, handleReconnection_resume.
  destruct (isIntentionalDisconnectRef (cleanup s));
    [apply cleanup_buffer |].
  destruct (_ <? _)%Z; cbn; apply cleanup_buffer.
Qed.

Lemma initSession_buffer seen r s :
  transcriptionBufferRef (initSessionSeeing env seen r s)
  = transcriptionBufferRef s.
Proof.
  unfold initSessionSeeing, initSession_catch.
  destruct (isConnectingRef s); [reflexivity |].
  destruct (_ && _); [reflexivity |].
  destruct keyMissing; [| destruct r];
    rewrite ?handleReconnection_buffer;
    destruct (_ =? _)%Z; reflexivity.
Qed.

Lemma step_buffer s e :
  notMessage e = true ->
  transcriptionBufferRef (step env s e) = transcriptionBufferRef s.
Proof.
  intros He. destruct e; try discriminate He; cbn [step].
  - unfold toggleSession. destruct (_ || _).
    + unfold disconnect, disconnect_resume, disconnect_begin,
        clearReconnectTimer. cbn. rewrite cleanup_buffer.
      destruct (reconnectTimerRef s); reflexivity.
    + unfold initSession. now rewrite initSession_buffer.
  - unfold fireTimer. destruct (pending t s); [| reflexivity].
    destruct (isIntentionalDisconnectRef _); [reflexivity |].
    now rewrite initSession_buffer.
  - reflexivity.
  - unfold sessionRejected, initSession_catch.
    now rewrite handleReconnection_buffer.
  - unfold onopen. cbn. destruct (audioContextRef s); reflexivity.
  - unfold onerror. destruct (isIntentionalDisconnectRef s); [reflexivity |].
    now rewrite handleReconnection_buffer.
  - unfold onclose. destruct (isIntentionalDisconnectRef s); [reflexivity |].
    now rewrite handleReconnection_buffer.
  - reflexivity.
Qed.

(** X16. Only inbound messages write the transcript buffers. A stop, a
    lost link, the reconnection attempts, a lock-out and a new start all
    leave them as they are, so the fragments of a turn that was cut off are
    still there when the next session's messages arrive (and end up in the
    entry of its first finished turn). *)
Theorem X16_buffers_survive_reconnects (es : list Event) (s : State) :
  forallb notMessage es = true ->
  transcriptionBufferRef (run env es s) = transcriptionBufferRef s.
Proof.
  revert s. induction es as [| e es IH]; intros s Hes; [reflexivity |].
  cbn in Hes. apply andb_prop in Hes as [He Hes].
  cbn [run foldl]. fold (run env es (step env s e)).
  rewrite (IH _ Hes). now apply step_buffer.
Qed.

Lemma omap_playback_stops (l : list positive) :
  omap (λ e, match e with
             | SourceStart _ w d => Some (w, d)
             | _ => None
             end) (SourceStop <$> l) = [].
Proof. induction l as [| n l IH]; [reflexivity | exact IH]. Qed.

Lemma playback_handleInterrupted s :
  playback (handleInterrupted env s) = playback s.
Proof.
  unfold handleInterrupted, playback. cbn.
  now rewrite omap_app, omap_playback_stops, app_nil_r.
Qed.

Lemma handlePart_audioView part s :
  outputAudioContextRef s = false \/ isPcm part = false ->
  audioView (handlePart env part s) = audioView s
  /\ sourcesRef (handlePart env part s) = sourcesRef s
  /\ outputAudioContextRef (handlePart env part s) = outputAudioContextRef s.
Proof.
  intros H. unfold handlePart, isPcm in *.
  destruct (inlineData part) as [d |]; [| repeat split; reflexivity].
  destruct (String.prefix "image/" (mimeType d)); [repeat split; reflexivity |].
  destruct (String.eqb (mimeType d) "audio/pcm;rate=24000");
    [| repeat split; reflexivity].
  unfold scheduleAudio.
  destruct (outputAudioContextRef s) eqn:E;
    [| repeat split; reflexivity || exact E].
  destruct H as [H | H]; discriminate H.
Qed.

Lemma handleParts_audioView parts s :
  outputAudioContextRef s = false \/ forallb (negb ∘ isPcm) parts = true ->
  audioView (foldl (λ s part, handlePart env part s) s parts) = audioView s
  /\ sourcesRef (foldl (λ s part, handlePart env part s) s parts)
     = sourcesRef s.
Proof.
  revert s. induction parts as [| p parts IH]; intros s H; [repeat split |].
  cbn [foldl].
  assert (outputAudioContextRef s = false \/ isPcm p = false) as Hp.
  { destruct H as [H | H]; [now left | right]. cbn in H.
    apply andb_prop in H as [H _]. now destruct (isPcm p). }
  destruct (handlePart_audioView p s Hp) as (Hv & Hsrc & Hctx).
  destruct (IH (handlePart env p s)) as (-> & ->).
  - destruct H as [H | H]; [left; congruence | right].
    cbn in H. now apply andb_prop in H as [_ H].
  - split; assumption.
Qed.

(** X17. Only 24 kHz PCM parts are played, and only once the output
    context exists. A message none of whose parts has exactly the type
    [audio/pcm;rate=24000] (images and parts of any other type included),
    or any message while there is no output context, starts no source,
    does not read the output clock and hands nothing to the output; unless
    it interrupts, it also leaves the cursor and the active sources as
    they are. *)
Theorem X17_only_pcm_is_played (m : LiveServerMessage) (s : State) :
  outputAudioContextRef s = false
  \/ forallb (negb ∘ isPcm) (parts_of m) = true ->
  let s' := onmessage env m s in
  playback s' = playback s
  /\ clockReads s' = clockReads s
  /\ nextHandle s' = nextHandle s
  /\ (default false (interrupted <$> serverContent m) = false ->
      nextStartTimeRef s' = nextStartTimeRef s
      /\ sourcesRef s' = sourcesRef s).
Proof.
  intros H. cbv zeta. unfold onmessage.
  set (s1 := if default false (turnComplete <$> serverContent m)
             then handleTurnComplete env
                    (handleTranscription (serverContent m) s)
             else handleTranscription (serverContent m) s).
  assert (audioView s1 = audioView s /\ sourcesRef s1 = sourcesRef s
          /\ outputAudioContextRef s1 = outputAudioContextRef s)
    as (Hv1 & Hs1 & Hc1).
  { unfold s1, handleTurnComplete, handleTranscription.
    split_cases; repeat split. }
  destruct (handleParts_audioView (parts_of m) s1) as (Hv & Hsrc).
  { destruct H as [H | H]; [left; congruence | now right]. }
  rewrite Hv1 in Hv. rewrite Hs1 in Hsrc. unfold audioView in Hv.
  injection Hv as Hp Hk Hn Hc.
  destruct (default false (interrupted <$> serverContent m)).
  - rewrite playback_handleInterrupted.
    split; [exact Hp |]. split; [exact Hk |]. split; [exact Hn |].
    discriminate.
  - repeat split; assumption.
Qed.

Lemma handleParts_hologram parts s :
  currentHologram (foldl (λ s part, handlePart env part s) s parts)
  = match last (omap imageUrl parts) with
    | Some url => Some url
    | None => currentHologram s
    end.
Proof.
  revert s. induction parts as [| p parts IH]; intros s; [reflexivity |].
  cbn [foldl]. rewrite IH. cbn [omap list_omap].
  unfold handlePart, imageUrl at 2, scheduleAudio.
  destruct (inlineData p) as [d |]; [| reflexivity].
  destruct (String.prefix "image/" (mimeType d)).
  - rewrite last_cons. destruct (last (omap imageUrl parts)); reflexivity.
  - split_cases; reflexivity.
Qed.

(** X18. The hologram is the last image of the last message that had one.
    A message with image parts replaces the hologram by the data URL
    [data:<type>;base64,<data>] of its last image part; a message without
    image parts leaves it as it is, also when it ends the turn or
    interrupts the speech. *)
Theorem X18_last_image_wins (m : LiveServerMessage) (s : State) :
  currentHologram (onmessage env m s)
  = match last (omap imageUrl (parts_of m)) with
    | Some url => Some url
    | None => currentHologram s
    end.
Proof.
  unfold onmessage.
  assert (forall x, currentHologram
            (if default false (interrupted <$> serverContent m)
             then handleInterrupted env x else x) = currentHologram x) as Hi
    by (intros x; destruct (default false _); reflexivity).
  rewrite Hi, handleParts_hologram.
  destruct (last (omap imageUrl (parts_of m))); [reflexivity |].
  unfold handleTurnComplete, handleTranscription. split_cases; reflexivity.
Qed.

(** X19. A source that has ended is not stopped again. Once its [ended]
    listener has run, an interruption stops all the other active sources
    and not that one. *)
Theorem X19_ended_source_not_stopped (n : positive) (s : State) :
  let s' := handleInterrupted env (sourceEnded n s) in
  exists stops,
    effects s' = effects s ++ (SourceStop <$> stops)
    /\ (n ∉ stops)
    /\ (forall k, k ∈ sourcesRef s -> k <> n -> k ∈ stops)
    /\ sourcesRef s' = ∅.
Proof.
  cbv zeta. exists (elements (sourcesRef s ∖ {[n]})).
  split; [reflexivity |]. split; [| split; [| reflexivity]].
  - rewrite elem_of_elements, elem_of_difference, elem_of_singleton.
    intros [_ H]. now apply H.
  - intros k Hk Hne.
    rewrite elem_of_elements, elem_of_difference, elem_of_singleton.
    split; assumption.
Qed.

End Messages.

(** X15 on an established session. *)
Lemma X15_output_transcript_wins_witness :
  transcriptionBufferRef
    (onmessage demoEnv
       {| serverContent := Some
            {| outputTranscription := Some "Yes, Sir.";
               inputTranscription := Some "hello";
               turnComplete := false; modelTurn := None;
               interrupted := false |} |} connectedState)
  = mkBuffer "" "Yes, Sir.".
Proof.
  exact (proj1 (proj1 (proj2 (X15_output_transcript_wins demoEnv
                  {| outputTranscription := Some "Yes, Sir.";
                     inputTranscription := Some "hello";
                     turnComplete := false; modelTurn := None;
                     interrupted := false |} "Yes, Sir." "hello"
                  connectedState eq_refl eq_refl)) eq_refl)).
Defined.

(** X16 on a turn cut off by a stop and a new start. *)
Lemma X16_buffers_survive_reconnects_witness :
  let s := onmessage demoEnv (inputMessage "open the") connectedState in
  transcriptionBufferRef
    (run demoEnv [ToggleSession MicDenied; ToggleSession ConnectPending;
                  OnOpen 4] s)
  = mkBuffer "open the" "".
Proof.
  intros s.
  exact (X16_buffers_survive_reconnects demoEnv
           [ToggleSession MicDenied; ToggleSession ConnectPending; OnOpen 4]
           s eq_refl).
Defined.

(** X17 on an image sent to an established session. *)
Lemma X17_only_pcm_is_played_witness :
  let m := {| serverContent := Some
                {| outputTranscription := None; inputTranscription := None;
                   turnComplete := false;
                   modelTurn := Some [ {| inlineData := Some
                     {| mimeType := "image/png"; data := "AAAA" |} |} ];
                   interrupted := false |} |} in
  playback (onmessage demoEnv m connectedState) = playback connectedState.
Proof.
  intros m.
  exact (proj1 (X17_only_pcm_is_played demoEnv m connectedState
                  (or_intror eq_refl))).
Defined.

(** ** What the user sees around an attempt *)

Section Feedback.

Variable env : Env.


(** X21. Losing the link does not change the status. When a close is
    handled (no intentional stop, fewer than five attempts counted) a
    reconnection is scheduled and nothing is connected or in flight, but
    the status stays what it was: unless it already was Reconnecting, the
    header reads [OFFLINE] and the button, enabled, reads [INIT_LINK]
    while the reconnection is pending. *)
Theorem X21_status_after_loss (s : State) :
  isIntentionalDisconnectRef s = false ->
  (reconnectAttemptsRef s < MAX_RECONNECT_ATTEMPTS)%Z ->
  let s' := onclose env s in
  status s' = status s
  /\ timers s' <> []
  /\ isConnected s' = false
  /\ buttonDisabled s' = false
  /\ (status s <> RECONNECTING ->
      satLinkLabel s' = "OFFLINE" /\ buttonLabel s' = "INIT_LINK").
Proof.
  intros Hi Hlt. cbv zeta. unfold onclose. rewrite Hi.
  match goal with |- context [handleReconnection env ?y] =>
    destruct (handleReconnection_retry env y Hi Hlt)
      as (_ & Ht & _ & _ & _ & Hs & _ & _ & Hc & Hk)
  end.
  unfold satLinkLabel, buttonLabel, buttonDisabled.
  rewrite Hs, Ht, Hc, Hk. cbn.
  split; [reflexivity |]. split; [intros H; now apply app_eq_nil in H as [_ H] |].
  do 2 (split; [reflexivity |]).
  intros Hne. destruct (status s); try (split; reflexivity). now destruct Hne.
Qed.

End Feedback.


(** X21 on an established session whose channel closes. *)
Lemma X21_status_after_loss_witness :
  status (onclose demoEnv connectedState) = status connectedState.
Proof.
  exact (proj1 (X21_status_after_loss demoEnv connectedState eq_refl
                  eq_refl)).
Defined.

(** ** A failure reported twice *)

Section DoubleReport.

Variable env : Env.

(** One report of the channel, by either callback, when no stop is under
    way: below the ceiling it counts an attempt and arms a timer, at the
    ceiling it locks out. *)
Lemma report_handled msg x :
  isIntentionalDisconnectRef x = false ->
  let x' := handleReconnection env (addLog env msg SYSTEM x) in
  isIntentionalDisconnectRef x' = false
  /\ ((reconnectAttemptsRef x < MAX_RECONNECT_ATTEMPTS)%Z ->
      reconnectAttemptsRef x' = (reconnectAttemptsRef x + 1)%Z
      /\ timers x' = timers x
           ++ [(nextHandle x, backoffDelay (reconnectAttemptsRef x + 1))]
      /\ reconnectTimerRef x' = Some (nextHandle x)
      /\ nextHandle x' = Pos.succ (nextHandle x))
  /\ ((MAX_RECONNECT_ATTEMPTS <= reconnectAttemptsRef x)%Z ->
      status x' = ERROR
      /\ reconnectAttemptsRef x' = 0%Z
      /\ timers x' = timers x
      /\ reconnectTimerRef x' = reconnectTimerRef x
      /\ nextHandle x' = nextHandle x).
Proof.
  intros Hi. cbv zeta. split; [| split].
  - destruct (Z.lt_ge_cases (reconnectAttemptsRef x) MAX_RECONNECT_ATTEMPTS)
      as [Hlt | Hge].
    + now destruct (handleReconnection_retry env
                      (addLog env msg SYSTEM x) Hi Hlt)
        as (_ & _ & _ & _ & _ & _ & _ & H & _).
    + now destruct (handleReconnection_lockout env
                      (addLog env msg SYSTEM x) Hi Hge)
        as (_ & _ & _ & _ & _ & _ & H & _).
  - intros Hlt.
    destruct (handleReconnection_retry env (addLog env msg SYSTEM x) Hi Hlt)
      as (Ha & Ht & Hr & Hn & _).
    repeat split; assumption.
  - intros Hge.
    destruct (handleReconnection_lockout env (addLog env msg SYSTEM x) Hi Hge)
      as (Hs & Ha & Ht & Hr & Hn & _).
    repeat split; assumption.
Qed.

(** X22. A failure that the channel reports through both [onerror] and
    [onclose] (no stop under way) is handled twice.  With fewer than four
    attempts counted, two attempts are counted and two timers are armed,
    with consecutive backoff delays, and only the second is remembered: a
    stop afterwards cancels the remembered timer only, and the first one
    stays pending (and does nothing when it fires, the intent flag being
    set).  With four attempts counted, the first report counts the fifth
    and arms its timer and the second report locks out: Error, counter 0,
    that one timer still pending.  With five counted, the first report
    locks out and the second counts attempt 1 and arms a 3-second timer. *)
Theorem X22_error_then_close_counts_twice (s : State) :
  isIntentionalDisconnectRef s = false ->
  let n := reconnectAttemptsRef s in
  let t1 := nextHandle s in
  let t2 := Pos.succ t1 in
  let s' := onclose env (onerror env s) in
  ((n + 1 < MAX_RECONNECT_ATTEMPTS)%Z ->
     reconnectAttemptsRef s' = (n + 2)%Z
     /\ timers s' = timers s ++ [(t1, backoffDelay (n + 1));
                                 (t2, backoffDelay (n + 2))]
     /\ reconnectTimerRef s' = Some t2
     /\ pending t2 (disconnect env s') = false
     /\ pending t1 (disconnect env s') = true
     /\ fireTimer env t1 ConnectPending (disconnect env s')
        = dropTimer t1 (disconnect env s'))
  /\ ((n + 1 = MAX_RECONNECT_ATTEMPTS)%Z ->
      status s' = ERROR
      /\ reconnectAttemptsRef s' = 0%Z
      /\ timers s' = timers s ++ [(t1, backoffDelay MAX_RECONNECT_ATTEMPTS)]
      /\ reconnectTimerRef s' = Some t1)
  /\ ((MAX_RECONNECT_ATTEMPTS <= n)%Z ->
      status s' = ERROR
      /\ reconnectAttemptsRef s' = 1%Z
      /\ timers s' = timers s ++ [(t1, backoffDelay 1)]
      /\ reconnectTimerRef s' = Some t1).
Proof.
  intros Hi. cbv zeta.
  set (m1 := "Link Collision Detected. Resetting Protocols...").
  set (m2 := "Satellite Bridge Severed. Searching for path...").
  assert (onerror env s = handleReconnection env (addLog env m1 SYSTEM s))
    as He by (unfold onerror; now rewrite Hi).
  destruct (report_handled m1 s Hi) as (Hi1 & Hlow1 & Hhigh1).
  cbv zeta in Hi1, Hlow1, Hhigh1. rewrite <- He in Hi1, Hlow1, Hhigh1.
  assert (onclose env (onerror env s)
          = handleReconnection env (addLog env m2 SYSTEM (onerror env s)))
    as Hc by (unfold onclose; now rewrite Hi1).
  destruct (report_handled m2 (onerror env s) Hi1) as (_ & Hlow2 & Hhigh2).
  cbv zeta in Hlow2, Hhigh2. rewrite <- Hc in Hlow2, Hhigh2.
  unfold MAX_RECONNECT_ATTEMPTS in *.
  split; [| split].
  - intros Hlt.
    destruct Hlow1 as (Ha1 & Ht1 & _ & Hn1); [lia |].
    destruct Hlow2 as (Ha2 & Ht2 & Hr2 & _); [lia |].
    rewrite Ha1 in Ha2, Ht2. rewrite Ht1, Hn1 in Ht2. rewrite Hn1 in Hr2.
    replace (reconnectAttemptsRef s + 1 + 1)%Z
      with (reconnectAttemptsRef s + 2)%Z in Ha2, Ht2 by lia.
    rewrite <- app_assoc in Ht2. cbn [app] in Ht2.
    split; [exact Ha2 |]. split; [exact Ht2 |]. split; [exact Hr2 |].
    assert (timers (disconnect env (onclose env (onerror env s)))
            = filter (λ p, p.1 ≠ Pos.succ (nextHandle s))
                (timers (onclose env (onerror env s)))) as Htd.
    { unfold disconnect, disconnect_resume, disconnect_begin,
        clearReconnectTimer. cbn. rewrite cleanup_timers. cbn.
      rewrite Hr2. reflexivity. }
    assert (pending (nextHandle s)
              (disconnect env (onclose env (onerror env s))) = true) as Hp1.
    { unfold pending. rewrite Htd, Ht2. apply bool_decide_true.
      apply list_elem_of_fmap.
      exists (nextHandle s, backoffDelay (reconnectAttemptsRef s + 1)).
      split; [reflexivity |]. apply list_elem_of_filter. split.
      - cbn. lia.
      - apply elem_of_app. right. apply list_elem_of_here. }
    split; [| split; [exact Hp1 |]].
    + unfold pending. rewrite Htd. apply bool_decide_false.
      intros Hin. apply list_elem_of_fmap in Hin as ([t' d] & Ht' & Hin).
      cbn in Ht'. subst t'. apply list_elem_of_filter in Hin as [Hne _].
      now apply Hne.
    + unfold fireTimer. rewrite Hp1. cbn.
      pose proof (disconnect_begin_intentional
                    (onclose env (onerror env s))) as Hint.
      unfold disconnect, disconnect_resume. cbn. now rewrite Hint.
  - intros Heq.
    destruct Hlow1 as (Ha1 & Ht1 & Hr1 & _); [lia |].
    destruct Hhigh2 as (Hs2 & Ha2 & Ht2 & Hr2 & _); [lia |].
    rewrite Ht2, Ht1, Hr2, Hr1.
    replace (reconnectAttemptsRef s + 1)%Z with 5%Z by lia.
    repeat split; assumption.
  - intros Hge.
    destruct Hhigh1 as (Hs1 & Ha1 & Ht1 & _ & Hn1); [lia |].
    destruct Hlow2 as (Ha2 & Ht2 & Hr2 & _); [lia |].
    rewrite Ha1 in Ha2, Ht2. rewrite Ht1, Hn1 in Ht2. rewrite Hn1 in Hr2.
    cbn in Ha2, Ht2.
    split; [| repeat split; assumption].
    rewrite Hc.
    apply (handleReconnection_status_error env). cbn. exact Hs1.
Qed.

End DoubleReport.

(** X22 on an established session. *)
Lemma X22_error_then_close_counts_twice_witness :
  reconnectAttemptsRef (onclose demoEnv (onerror demoEnv connectedState))
  = 2%Z.
Proof.
  exact (proj1 (proj1 (X22_error_then_close_counts_twice demoEnv
                         connectedState eq_refl) eq_refl)).
Defined.

(** ** A reconnection timer that outlives its failure *)

Section StaleTimer.

Variable env : Env.


End StaleTimer.


(** X24. Failures reported twice reach the lock-out early and leave timers
    behind.  On a fresh component the user starts a session and each
    attempt fails with an error event followed by a close event; the
    earliest pending timer starts the next attempt.  After the third
    attempt the status is Error and the counter is 0, with three timers
    still pending, and the first of them to fire starts a fourth attempt. *)
Theorem X24_twice_reported_lock_out_early :
  let a1 := reportedTwice demoEnv
              (toggleSession demoEnv ConnectPending initialState) in
  let a2 := reportedTwice demoEnv (fireTimer demoEnv 2 ConnectPending a1) in
  let a3 := reportedTwice demoEnv (fireTimer demoEnv 3 ConnectPending a2) in
  let a4 := fireTimer demoEnv 5 ConnectPending a3 in
  timers a1 = [(2%positive, 3000%Z); (3%positive, 6000%Z)]
  /\ timers a2 = [(3%positive, 6000%Z); (5%positive, 12000%Z);
                  (6%positive, 15000%Z)]
  /\ status a3 = ERROR
  /\ reconnectAttemptsRef a3 = 0%Z
  /\ timers a3 = [(5%positive, 12000%Z); (6%positive, 15000%Z);
                  (8%positive, 15000%Z)]
  /\ acquisitions a3 = [GetUserMedia; LiveConnect; GetUserMedia; LiveConnect;
                        GetUserMedia; LiveConnect]
  /\ acquisitions a4 = acquisitions a3 ++ [GetUserMedia; LiveConnect]
  /\ isConnectingRef a4 = true.
Proof. vm_compute. repeat split. Qed.
